(** * legendscli: the power model and the save-file decoding pipeline

    A shallow embedding of [legendscli/functions.py].  Python values are
    modelled as follows.
    - [str] is the list of its Unicode code points, [bytes] the list of its
      byte values; both are lists of [Z].
    - a [dict] that the code only indexes or assigns to is a [gmap]; a
      [dict] that the code iterates over is given by its [items()] list, in
      insertion order.
    - a Python exception is a value of [exn], and a computation that may
      raise returns a [result].
    - the functions the module imports from elsewhere ([AESdecrypt],
      [zlib.decompress], [json.loads]) and the constants tables are
      parameters; [base64.b64decode] and the text codecs are written out, the
      former after the decoding loop of CPython's [binascii.a2b_base64]. *)

From Stdlib Require Import ZArith List Lia DecimalString.
From stdpp Require Import base option list strings gmap.

Local Open Scope Z_scope.
#[local] Set Warnings "-register-all,-clear-no-such-hyp".

(** ** Python values *)

Abbreviation pystr := (list Z).
Abbreviation pybytes := (list Z).

(** A string literal of the source, as a Python [str]. *)
Definition py (s : string) : pystr :=
  map (fun a => Z.of_nat (Ascii.nat_of_ascii a)) (String.list_ascii_of_string s).

(** [str(i)] for an [int]. *)
Definition py_str_int (i : Z) : pystr :=
  py (NilZero.string_of_int (Z.to_int i)).

(** The exceptions that the modelled code and its libraries raise. *)
Inductive exn : Type :=
  | TypeError
  | KeyError (key : pystr)
  | IndexError
  | ValueError
  | UnicodeEncodeError
  | UnicodeDecodeError
  | BinasciiError
  | ZlibError
  | JSONDecodeError
  | OSError.

Inductive result (A : Type) : Type :=
  | Ok (a : A)
  | Raise (e : exn).
Arguments Ok {A} a.
Arguments Raise {A} e.

#[global] Instance result_ret : MRet result := fun _ a => Ok a.
#[global] Instance result_bind : MBind result := fun _ _ f m =>
  match m with
  | Ok a => f a
  | Raise e => Raise e
  end.

(** [d[key]] on a dict: a missing key raises [KeyError]. *)
Definition getitem {V} (d : gmap pystr V) (key : pystr) : result V :=
  match d !! key with
  | Some v => Ok v
  | None => Raise (KeyError key)
  end.

(** [l[i]] on a list, for an index [i >= 0]. *)
Definition list_getitem {V} (l : list V) (i : nat) : result V :=
  match l !! i with
  | Some v => Ok v
  | None => Raise IndexError
  end.

(** ** The power model *)

(** Numbers, with Python's [0], [+] and [*]. *)
Class PyNum (num : Type) : Type := {
  nzero : num;
  nadd : num -> num -> num;
  nmul : num -> num -> num
}.

(** The tables of [legendscli.constants] that the power model reads.
    [PART_STAT_VALUES] is iterated over, so it is given by its items. *)
Record constants (num : Type) : Type := {
  POWER_GRADIENT : gmap pystr num;
  POWER_AT_ORIGIN : num;
  PART_STAT_VALUES : list (pystr * gmap pystr (list num))
}.
Arguments POWER_GRADIENT {num} _.
Arguments POWER_AT_ORIGIN {num} _.
Arguments PART_STAT_VALUES {num} _.

(** The [for] loop of [powerDelta], with [delta] the running total. *)
Fixpoint powerDelta_loop `{PyNum num} (C : constants num)
    (items : list (pystr * num)) (delta : num) : result num :=
  match items with
  | [] => Ok delta
  | (statName, statVal) :: rest =>
      g ← getitem (POWER_GRADIENT C) statName;
      powerDelta_loop C rest (nadd delta (nmul g statVal))
  end.

Definition powerDelta `{PyNum num} (C : constants num)
    (stats : list (pystr * num)) : result num :=
  powerDelta_loop C stats nzero.

Definition power `{PyNum num} (C : constants num)
    (stats : list (pystr * num)) : result num :=
  d ← powerDelta C stats;
  Ok (nadd (POWER_AT_ORIGIN C) d).

(** The entry [{'maxValue': maxValue, 'power': p}]. *)
Definition maxStat_entry {num} (maxValue p : num) : gmap pystr num :=
  <[py "maxValue" := maxValue]> (<[py "power" := p]> ∅).

Fixpoint maxParticleStats_loop `{PyNum num} (C : constants num)
    (items : list (pystr * gmap pystr (list num)))
    (maxStats : gmap pystr (gmap pystr num))
  : result (gmap pystr (gmap pystr num)) :=
  match items with
  | [] => Ok maxStats
  | (statName, data) :: rest =>
      levels ← getitem data (py "Legendary");
      maxValue ← list_getitem levels 4;
      p ← powerDelta C [(statName, maxValue)];
      maxParticleStats_loop C rest
        (<[statName := maxStat_entry maxValue p]> maxStats)
  end.

Definition maxParticleStats `{PyNum num} (C : constants num)
  : result (gmap pystr (gmap pystr num)) :=
  maxParticleStats_loop C (PART_STAT_VALUES C) ∅.

(** The coefficient of an attribute, and the sum of
    [gradient[attribute] * delta[attribute]] over the items of a mapping,
    added up from [0] in the order of the items. *)
Definition gradient `{PyNum num} (C : constants num) (statName : pystr) : num :=
  default nzero (POWER_GRADIENT C !! statName).

Definition weighted_sum `{PyNum num} (C : constants num)
    (stats : list (pystr * num)) : num :=
  fold_left nadd (map (fun kv => nmul (gradient C kv.1) kv.2) stats) nzero.

Definition known_attribute {num} (C : constants num) (statName : pystr) : Prop :=
  is_Some (POWER_GRADIENT C !! statName).

(** The tier table is in the shape the code reads it in: no attribute
    listed twice, and for each attribute a coefficient in the gradient table
    and a ['Legendary'] tier of five levels. *)
Definition tier_table_ok {num} (C : constants num) : Prop :=
  NoDup (PART_STAT_VALUES C).*1 /\
  Forall (fun kv =>
            is_Some (POWER_GRADIENT C !! kv.1) /\
            length <$> (kv.2 !! py "Legendary") = Some 5%nat)
         (PART_STAT_VALUES C).

(** What one round of the loop of [maxParticleStats] stores for an
    attribute: the fifth level of its ['Legendary'] tier and the
    [powerDelta] of that value alone. *)
Definition maxStat_of `{PyNum num} (C : constants num) (statName : pystr)
    (data : gmap pystr (list num)) (entry : gmap pystr num) : Prop :=
  exists levels maxValue p,
    data !! py "Legendary" = Some levels /\
    levels !! 4%nat = Some maxValue /\
    last levels = Some maxValue /\
    powerDelta C [(statName, maxValue)] = Ok p /\
    entry !! py "maxValue" = Some maxValue /\
    entry !! py "power" = Some p.

(** Integers as numbers. *)
#[global] Instance Z_PyNum : PyNum Z :=
  {| nzero := 0; nadd := Z.add; nmul := Z.mul |}.

(** A small instance of the tables. *)
Definition sample_constants : constants Z := {|
  POWER_GRADIENT := <[py "Attack" := 6]> (<[py "Health" := 2]> ∅);
  POWER_AT_ORIGIN := 100;
  PART_STAT_VALUES :=
    [ (py "Attack", <[py "Legendary" := [10; 20; 30; 40; 50]]>
                     (<[py "Common" := [1; 2; 3; 4; 5]]> ∅));
      (py "Health", <[py "Legendary" := [100; 200; 300; 400; 500]]> ∅) ]
|}.

(** ** Values of the save file *)

(** What a property list or a JSON text can hold.  A float is kept as its
    IEEE-754 bit pattern and a date as its timestamp. *)
Inductive pyval : Type :=
  | PNone
  | PBool (b : bool)
  | PInt (i : Z)
  | PFloat (bits : Z)
  | PDate (stamp : Z)
  | PStr (s : pystr)
  | PBytes (b : pybytes)
  | PList (l : list pyval)
  | PDict (d : gmap pystr pyval).

(** [len(v)]: defined on strings, bytes, lists and dicts. *)
Definition py_len (v : pyval) : result Z :=
  match v with
  | PStr s => Ok (Z.of_nat (length s))
  | PBytes b => Ok (Z.of_nat (length b))
  | PList l => Ok (Z.of_nat (length l))
  | PDict d => Ok (Z.of_nat (size d))
  | _ => Raise TypeError
  end.

(** [d.get(key, dflt)]. *)
Definition dict_get {V} (d : gmap pystr V) (key : pystr) (dflt : V) : V :=
  default dflt (d !! key).

(** [range(n)]. *)
Definition py_range (n : nat) : list Z := Z.of_nat <$> seq 0 n.

(** [for i in xs: s = body(s, i)], stopping at the first exception. *)
Fixpoint for_in {S} (xs : list Z) (body : S -> Z -> result S) (s : S)
  : result S :=
  match xs with
  | [] => Ok s
  | i :: rest => s' ← body s i; for_in rest body s'
  end.

(** ** Text encodings *)

Definition is_byte (b : Z) : Prop := 0 <= b < 256.
Definition is_ascii (c : Z) : Prop := 0 <= c < 128.

(** The UTF-16 code units of one code point; a surrogate cannot be
    encoded. *)
Definition utf16_units (c : Z) : result (list Z) :=
  if (c <? 0) || (0x110000 <=? c) then Raise UnicodeEncodeError
  else if (0xD800 <=? c) && (c <? 0xE000) then Raise UnicodeEncodeError
  else if c <? 0x10000 then Ok [c]
  else Ok [0xD800 + Z.shiftr (c - 0x10000) 10;
           0xDC00 + Z.land (c - 0x10000) 0x3FF].

(** A code unit as two bytes, low byte first. *)
Definition unit_le (u : Z) : pybytes := [Z.land u 0xFF; Z.shiftr u 8].

Fixpoint utf16_le (text : pystr) : result pybytes :=
  match text with
  | [] => Ok []
  | c :: rest =>
      us ← utf16_units c;
      bs ← utf16_le rest;
      Ok (concat (unit_le <$> us) ++ bs)
  end.

(** [text.encode('utf-16')] on a little-endian machine: the byte-order mark
    [FF FE], then the code units low byte first. *)
Definition encode_utf16 (text : pystr) : result pybytes :=
  bs ← utf16_le text;
  Ok ([0xFF; 0xFE] ++ bs).

(** [text.encode('ascii')]. *)
Fixpoint encode_ascii (text : pystr) : result pybytes :=
  match text with
  | [] => Ok []
  | c :: rest =>
      if (0 <=? c) && (c <? 128)
      then bs ← encode_ascii rest; Ok (c :: bs)
      else Raise UnicodeEncodeError
  end.

(** [data.decode('ascii')]. *)
Fixpoint decode_ascii (data : pybytes) : result pystr :=
  match data with
  | [] => Ok []
  | b :: rest =>
      if (0 <=? b) && (b <? 128)
      then s ← decode_ascii rest; Ok (b :: s)
      else Raise UnicodeDecodeError
  end.

(** [text.encode('utf-8')]. *)
Definition utf8_bytes (c : Z) : result pybytes :=
  if (c <? 0) || (0x110000 <=? c) then Raise UnicodeEncodeError
  else if (0xD800 <=? c) && (c <? 0xE000) then Raise UnicodeEncodeError
  else if c <? 0x80 then Ok [c]
  else if c <? 0x800 then
    Ok [0xC0 + Z.shiftr c 6; 0x80 + Z.land c 0x3F]
  else if c <? 0x10000 then
    Ok [0xE0 + Z.shiftr c 12; 0x80 + Z.land (Z.shiftr c 6) 0x3F;
        0x80 + Z.land c 0x3F]
  else
    Ok [0xF0 + Z.shiftr c 18; 0x80 + Z.land (Z.shiftr c 12) 0x3F;
        0x80 + Z.land (Z.shiftr c 6) 0x3F; 0x80 + Z.land c 0x3F].

Fixpoint encode_utf8 (text : pystr) : result pybytes :=
  match text with
  | [] => Ok []
  | c :: rest =>
      cs ← utf8_bytes c;
      bs ← encode_utf8 rest;
      Ok (cs ++ bs)
  end.

(** ** Base64 *)

(** The character of a 6-bit value in the base64 alphabet
    ([A-Z], [a-z], [0-9], [+], [/]). *)
Definition table_b2a_base64 (v : Z) : Z :=
  if v <? 26 then 65 + v
  else if v <? 52 then 97 + (v - 26)
  else if v <? 62 then 48 + (v - 52)
  else if v =? 62 then 43
  else 47.

(** The 6-bit value of a character, and [255] for a character outside the
    alphabet. *)
Definition table_a2b_base64 (c : Z) : Z :=
  if (65 <=? c) && (c <=? 90) then c - 65
  else if (97 <=? c) && (c <=? 122) then c - 97 + 26
  else if (48 <=? c) && (c <=? 57) then c - 48 + 52
  else if c =? 43 then 62
  else if c =? 47 then 63
  else 255.

Definition BASE64_PAD : Z := 61.

(** The decoding loop of [binascii.a2b_base64] in its default, non-strict
    mode.  [quad_pos] counts the characters of the current group of four,
    [leftchar] holds the bits not yet written, [pads] counts the padding
    characters seen since the last data character, and [bin_data] is the
    output so far.  A character that is neither padding nor in the alphabet
    is skipped. *)
Fixpoint a2b_base64_loop (ascii_data : pybytes) (quad_pos leftchar pads : Z)
    (bin_data : pybytes) : result pybytes :=
  match ascii_data with
  | [] =>
      if quad_pos =? 0 then Ok bin_data else Raise BinasciiError
  | this_ch :: rest =>
      if this_ch =? BASE64_PAD then
        if 2 <=? quad_pos then
          if 4 <=? quad_pos + (pads + 1) then Ok bin_data
          else a2b_base64_loop rest quad_pos leftchar (pads + 1) bin_data
        else a2b_base64_loop rest quad_pos leftchar pads bin_data
      else
        let v := table_a2b_base64 this_ch in
        if 64 <=? v then a2b_base64_loop rest quad_pos leftchar pads bin_data
        else if quad_pos =? 0 then
          a2b_base64_loop rest 1 v 0 bin_data
        else if quad_pos =? 1 then
          a2b_base64_loop rest 2 (Z.land v 0x0f) 0
            (bin_data ++ [Z.lor (Z.shiftl leftchar 2) (Z.shiftr v 4)])
        else if quad_pos =? 2 then
          a2b_base64_loop rest 3 (Z.land v 0x03) 0
            (bin_data ++ [Z.lor (Z.shiftl leftchar 4) (Z.shiftr v 2)])
        else
          a2b_base64_loop rest 0 0 0
            (bin_data ++ [Z.lor (Z.shiftl leftchar 6) v])
  end.

(** [base64.b64decode(s)]. *)
Definition b64decode (s : pybytes) : result pybytes :=
  a2b_base64_loop s 0 0 0 [].

(** The four 6-bit values of a group of three bytes [a], [b], [c]. *)
Definition enc0 (a : Z) : Z := Z.shiftr a 2.
Definition enc1 (a b : Z) : Z :=
  Z.lor (Z.shiftl (Z.land a 0x03) 4) (Z.shiftr b 4).
Definition enc2 (b c : Z) : Z :=
  Z.lor (Z.shiftl (Z.land b 0x0f) 2) (Z.shiftr c 6).
Definition enc3 (c : Z) : Z := Z.land c 0x3f.

(** [base64.b64encode(s)]: three bytes become four characters; a last
    group of one or two bytes is filled up with zero bits, and padded with
    [=] to four characters. *)
Fixpoint b64encode (s : pybytes) : pybytes :=
  match s with
  | [] => []
  | [a] =>
      [table_b2a_base64 (enc0 a); table_b2a_base64 (enc1 a 0);
       BASE64_PAD; BASE64_PAD]
  | [a; b] =>
      [table_b2a_base64 (enc0 a); table_b2a_base64 (enc1 a b);
       table_b2a_base64 (enc2 b 0); BASE64_PAD]
  | a :: b :: c :: rest =>
      [table_b2a_base64 (enc0 a); table_b2a_base64 (enc1 a b);
       table_b2a_base64 (enc2 b c); table_b2a_base64 (enc3 c)]
      ++ b64encode rest
  end.

(** A character that a padded base64 string is made of. *)
Definition base64_char (c : Z) : Prop :=
  table_a2b_base64 c < 64 \/ c = BASE64_PAD.

(** The byte values, and the checks that the round trip of base64 rests
    on, which are settled by running through all bytes. *)
Definition bytes256 : list Z := Z.of_nat <$> seq 0 256.


(** A 6-bit value survives the two tables, and its character is an ASCII
    character other than the padding. *)
Definition sextet_ok (v : Z) : bool :=
  (table_a2b_base64 (table_b2a_base64 v) =? v)
  && negb (table_b2a_base64 v =? BASE64_PAD)
  && (0 <=? table_b2a_base64 v) && (table_b2a_base64 v <? 128)
  && (0 <=? v) && (v <? 64).

Definition group_ok (a b : Z) : bool :=
  sextet_ok (enc0 a) && sextet_ok (enc1 a b) && sextet_ok (enc2 a b)
  && sextet_ok (enc3 a)
  && (Z.lor (Z.shiftl (enc0 a) 2) (Z.shiftr (enc1 a b) 4) =? a)
  && (Z.land (enc1 a b) 0x0f =? Z.shiftr b 4)
  && (Z.shiftr (enc2 a b) 2 =? Z.land a 0x0f)
  && (Z.lor (Z.shiftl (Z.shiftr a 4) 4) (Z.land a 0x0f) =? a)
  && (Z.land (enc2 a b) 0x03 =? Z.shiftr b 6)
  && (Z.lor (Z.shiftl (Z.shiftr a 6) 6) (enc3 a) =? a).


(** ** The imported functions *)

(** What [functions.py] calls and does not define: [AESdecrypt] of
    [legendscli.utils.functions], [zlib.decompress] and [json.loads]. *)
Record Lib : Type := {
  AESdecrypt : pyval -> pystr -> pystr -> result pystr;
  zlib_decompress : pybytes -> Z -> result pybytes;
  json_loads : pystr -> result pyval
}.

(** ** Decompression *)

Definition decompressData (L : Lib) (text : pystr) : result pystr :=
  b64data ← encode_utf16 text;
  compressedData ← b64decode b64data;
  data ← zlib_decompress L compressedData (-15);
  decode_ascii data.

(** The same function with the text turned into bytes by ASCII encoding,
    the convention the specification compares the source with. *)
Definition decompressData_ascii (L : Lib) (text : pystr) : result pystr :=
  b64data ← encode_ascii text;
  compressedData ← b64decode b64data;
  data ← zlib_decompress L compressedData (-15);
  decode_ascii data.

(** The compression that [decompressData] undoes, as its docstring tells
    it: the text is turned into bytes (UTF-8, which on ASCII text is ASCII),
    compressed by a raw deflate [deflate], and written in base64. *)
Definition compressData (deflate : pybytes -> pybytes) (text : pystr)
  : result pystr :=
  data ← encode_utf8 text;
  decode_ascii (b64encode (deflate data)).

(** [deflate] is a raw deflate compressor that [zlib.decompress] undoes:
    on bytes it gives bytes, which decompress to the data. *)
Definition deflate_pair (L : Lib) (deflate : pybytes -> pybytes) : Prop :=
  forall data, Forall is_byte data ->
    Forall is_byte (deflate data) /\
    zlib_decompress L (deflate data) (-15) = Ok data.

(** Decompression undoes compression on every text. *)
Definition roundtrip_every_text : Prop :=
  forall L deflate, deflate_pair L deflate ->
    forall T, exists c,
      compressData deflate T = Ok c /\ decompressData L c = Ok T.

(** ** The save file *)

(** What the function reads from its surroundings: the name of the user
    and, for a path, what [open] and [plistlib.load] give. *)
Record World : Type := {
  getuser : pystr;
  load_plist : pystr -> result (gmap pystr pyval)
}.

Definition saveFilePath (w : World) : pystr :=
  py "/Users/" ++ getuser w ++ py "/Library/Containers/"
  ++ py "com.tiltingpoint.startrek/Data/Library/Preferences/"
  ++ py "com.tiltingpoint.startrek.plist".

Definition AES_KEY : pystr := py "K1FjcmVkc2Vhc29u".
Definition AES_IV : pystr := py "LH75Qxpyf0prVvImu4gqxg==".
Definition COMPR : pystr := py "compr-".

(** The key of slot [i]: [str(i) + ' data']. *)
Definition slot_key (i : Z) : pystr := py_str_int i ++ py " data".

(** Lines 165 to 172: decrypt, decompress when marked, parse. *)
Definition decode_payload (L : Lib) (field : pyval) : result pyval :=
  slotData ← AESdecrypt L field AES_KEY AES_IV;
  slotData ← (if bool_decide (take 6 slotData = COMPR)
              then decompressData L (drop 6 slotData)
              else Ok slotData);
  json_loads L slotData.

(** The body of the loop over the slots. *)
Definition decode_slot (L : Lib) (saveFile : gmap pystr pyval) (i : Z)
  : result (gmap pystr pyval) :=
  let key := slot_key i in
  n ← py_len (dict_get saveFile key (PStr []));
  if n =? 0 then Ok (<[key := PDict ∅]> saveFile)
  else
    field ← getitem saveFile key;
    payload ← decode_payload L field;
    Ok (<[key := payload]> saveFile).

Definition decode_slots (L : Lib) (saveFile : gmap pystr pyval)
  : result (gmap pystr pyval) :=
  for_in (py_range 3) (decode_slot L) saveFile.

Definition decryptSaveFile (L : Lib) (w : World)
  : result (gmap pystr pyval) :=
  saveFile ← load_plist w (saveFilePath w);
  decode_slots L saveFile.

(** *** Fields, stages and outcomes of a slot *)

(** A slot field that is absent or has length [0]. *)
Definition empty_field (field : option pyval) : Prop :=
  field = None \/ exists v, field = Some v /\ py_len v = Ok 0.

(** A slot field that is present and has a length other than [0]. *)
Definition populated_field (field : option pyval) (v : pyval) : Prop :=
  field = Some v /\ exists n, py_len v = Ok n /\ n <> 0.

(** The stages of a populated slot, in their order: [plain] is the
    decrypted text, [text] what is parsed, [payload] the parsed value. *)
Inductive slot_stages (L : Lib) (field : pyval) (payload : pyval) : Prop :=
  | stages_plain (plain : pystr) :
      AESdecrypt L field AES_KEY AES_IV = Ok plain ->
      take 6 plain <> COMPR ->
      json_loads L plain = Ok payload ->
      slot_stages L field payload
  | stages_compressed (plain text : pystr) :
      AESdecrypt L field AES_KEY AES_IV = Ok plain ->
      take 6 plain = COMPR ->
      decompressData L (drop 6 plain) = Ok text ->
      json_loads L text = Ok payload ->
      slot_stages L field payload.

(** The value that the loop writes for a slot whose field is [field]. *)
Definition slot_outcome (L : Lib) (field : option pyval) : result pyval :=
  n ← py_len (default (PStr []) field);
  if n =? 0 then Ok (PDict ∅)
  else match field with
       | Some v => decode_payload L v
       | None => Ok (PDict ∅)
       end.

(** A stage of a populated slot fails with [e]: [e] is what [AESdecrypt]
    raises on the field, or what [decompressData] raises on the marked text,
    or what [json.loads] raises on the text to be parsed, the stages before
    it having returned. *)
Inductive stage_failure (L : Lib) (field : pyval) (e : exn) : Prop :=
  | decryption_fails :
      AESdecrypt L field AES_KEY AES_IV = Raise e ->
      stage_failure L field e
  | decompression_fails (plain : pystr) :
      AESdecrypt L field AES_KEY AES_IV = Ok plain ->
      take 6 plain = COMPR ->
      decompressData L (drop 6 plain) = Raise e ->
      stage_failure L field e
  | parsing_fails_plain (plain : pystr) :
      AESdecrypt L field AES_KEY AES_IV = Ok plain ->
      take 6 plain <> COMPR ->
      json_loads L plain = Raise e ->
      stage_failure L field e
  | parsing_fails_compressed (plain text : pystr) :
      AESdecrypt L field AES_KEY AES_IV = Ok plain ->
      take 6 plain = COMPR ->
      decompressData L (drop 6 plain) = Ok text ->
      json_loads L text = Raise e ->
      stage_failure L field e.

(** A slot field decodes: it is absent or empty, or it is populated and
    its stages all return. *)
Definition slot_decodes (L : Lib) (field : option pyval) : Prop :=
  empty_field field \/
  exists v payload, populated_field field v /\ slot_stages L v payload.

(** Slot [i] is the first slot of [d] whose decoding fails, and it fails
    with [e]: the slot is populated, one of its stages raises [e], and the
    slots before it decode. *)
Definition first_failure (L : Lib) (d : gmap pystr pyval) (i : Z) (e : exn)
  : Prop :=
  0 <= i < 3 /\
  (exists v, populated_field (d !! slot_key i) v /\ stage_failure L v e) /\
  forall j, 0 <= j < i -> slot_decodes L (d !! slot_key j).

(** The error of a failing slot names that slot: whatever the imported
    functions and the document are, the index of the first failing slot can
    be read off the exception that the decoder raises. *)
Definition slot_index_carried (slot_of : exn -> option Z) : Prop :=
  forall L d i e, first_failure L d i e ->
    exists e', decode_slots L d = Raise e' /\ slot_of e' = Some i.

(** ** Instances for the examples *)

(** Raw deflate restricted to stored blocks (RFC 1951, block type 0): a
    header byte whose lowest bit marks the last block, the length [LEN] and
    its complement [NLEN] on two bytes each, low byte first, then [LEN]
    bytes of data. *)
Definition stored_block (final : bool) (chunk : pybytes) : pybytes :=
  let len := Z.of_nat (length chunk) in
  [ (if final then 1 else 0);
    Z.land len 0xFF; Z.shiftr len 8;
    Z.land (0xFFFF - len) 0xFF; Z.shiftr (0xFFFF - len) 8 ] ++ chunk.

Fixpoint deflate_stored_fuel (fuel : nat) (data : pybytes) : pybytes :=
  match fuel with
  | O => stored_block true data
  | S fuel' =>
      if Z.of_nat (length data) <=? 0xFFFF then stored_block true data
      else stored_block false (take (Z.to_nat 0xFFFF) data)
           ++ deflate_stored_fuel fuel' (drop (Z.to_nat 0xFFFF) data)
  end.

Definition deflate_stored (data : pybytes) : pybytes :=
  deflate_stored_fuel (length data) data.

Fixpoint inflate_stored_fuel (fuel : nat) (data out : pybytes)
  : result pybytes :=
  match fuel with
  | O => Raise ZlibError
  | S fuel' =>
      match data with
      | h :: l0 :: l1 :: n0 :: n1 :: rest =>
          let len := l0 + 256 * l1 in
          if negb (Z.land (Z.shiftr h 1) 3 =? 0) then Raise ZlibError
          else if negb (n0 + 256 * n1 =? 0xFFFF - len) then Raise ZlibError
          else if Z.of_nat (length rest) <? len then Raise ZlibError
          else
            let out' := out ++ take (Z.to_nat len) rest in
            if Z.land h 1 =? 1 then Ok out'
            else inflate_stored_fuel fuel' (drop (Z.to_nat len) rest) out'
      | _ => Raise ZlibError
      end
  end.

(** [zlib.decompress(data, wbits)] on streams of stored blocks; only the
    raw format, [wbits = -15], is covered. *)
Definition inflate_stored (data : pybytes) (wbits : Z) : result pybytes :=
  if wbits =? -15 then inflate_stored_fuel (length data) data []
  else Raise ZlibError.

(** A parser for the JSON texts of the examples. *)
Definition loads_sample (text : pystr) : result pyval :=
  if bool_decide (text = py "{}") then Ok (PDict ∅)
  else if bool_decide (text = py "[1]") then Ok (PList [PInt 1])
  else Raise JSONDecodeError.

(** A stand-in for the cipher: under the key and the vector of the game,
    the ciphertext [c0] holds the text of an empty object, [c1] the marker
    followed by the compression of [[1]], and [c2] a text that is not
    JSON; nothing else decrypts. *)
Definition AESdecrypt_sample (field : pyval) (key iv : pystr) : result pystr :=
  match field with
  | PStr s =>
      if negb (bool_decide (key = AES_KEY /\ iv = AES_IV)) then Raise ValueError
      else if bool_decide (s = py "c0") then Ok (py "{}")
      else if bool_decide (s = py "c1") then
        text ← compressData deflate_stored (py "[1]"); Ok (COMPR ++ text)
      else if bool_decide (s = py "c2") then Ok (py "{")
      else Raise ValueError
  | _ => Raise TypeError
  end.

Definition sample_lib : Lib := {|
  AESdecrypt := AESdecrypt_sample;
  zlib_decompress := inflate_stored;
  json_loads := loads_sample
|}.

(** A save file with the three slots and one more key. *)
Definition sample_saveFile : gmap pystr pyval :=
  <[py "0 data" := PStr (py "c0")]>
    (<[py "1 data" := PStr []]>
      (<[py "2 data" := PStr (py "c1")]>
        (<[py "version" := PInt 13]> ∅))).

(** Two documents with one populated slot each, both holding [c2]. *)
Definition corrupt_slot_0 : gmap pystr pyval :=
  <[py "0 data" := PStr (py "c2")]> ∅.
Definition corrupt_slot_1 : gmap pystr pyval :=
  <[py "1 data" := PStr (py "c2")]> ∅.

Definition sample_world : World := {|
  getuser := py "kirk";
  load_plist := fun path =>
    if bool_decide (path = py "/Users/kirk/Library/Containers/com.tiltingpoint.startrek/Data/Library/Preferences/com.tiltingpoint.startrek.plist")
    then Ok sample_saveFile else Raise OSError
|}.

(** ** Further notions and instances *)

(** The exception that one round of the loop of [maxParticleStats] raises
    for an item of the tier table, if any: the lookups are made in the order
    ['Legendary'], index 4, coefficient of the attribute. *)
Definition entry_failure {num} (C : constants num)
    (kv : pystr * gmap pystr (list num)) : option exn :=
  match kv.2 !! py "Legendary" with
  | None => Some (KeyError (py "Legendary"))
  | Some levels =>
      match levels !! 4%nat with
      | None => Some IndexError
      | Some _ =>
          match POWER_GRADIENT C !! kv.1 with
          | None => Some (KeyError kv.1)
          | Some _ => None
          end
      end
  end.

(** Tables whose second attribute has a ['Legendary'] tier of four levels. *)
Definition short_tier_constants : constants Z := {|
  POWER_GRADIENT := <[py "Attack" := 6]> (<[py "Health" := 2]> ∅);
  POWER_AT_ORIGIN := 100;
  PART_STAT_VALUES :=
    [ (py "Attack", <[py "Legendary" := [10; 20; 30; 40; 50]]> ∅);
      (py "Health", <[py "Legendary" := [100; 200; 300; 400]]> ∅) ]
|}.

#[global] Instance base64_char_dec (c : Z) : Decision (base64_char c) :=
  decide (table_a2b_base64 c < 64 \/ c = BASE64_PAD).

(** A surrogate code point, which no encoding of text can hold. *)
Definition is_surrogate (c : Z) : Prop := 0xD800 <= c < 0xE000.

(** The characters of the base64 alphabet in a text, padding apart. *)
Definition data_chars (text : pystr) : list Z :=
  filter (fun c => table_a2b_base64 c < 64) text.

(** A value that [len] is not defined on. *)
Definition unsized (v : pyval) : Prop :=
  match v with
  | PNone | PBool _ | PInt _ | PFloat _ | PDate _ => True
  | _ => False
  end.

(** A stand-in for the cipher on two ciphertexts of the same JSON text:
    [p] holds it plain, [z] compressed and marked. *)
Definition AESdecrypt_sample_2 (field : pyval) (key iv : pystr)
  : result pystr :=
  match field with
  | PStr s =>
      if bool_decide (s = py "p") then Ok (py "[1]")
      else if bool_decide (s = py "z") then Ok (COMPR ++ py "AQMA/P9bMV0=")
      else Raise ValueError
  | _ => Raise TypeError
  end.

Definition sample_lib_2 : Lib := {|
  AESdecrypt := AESdecrypt_sample_2;
  zlib_decompress := inflate_stored;
  json_loads := loads_sample
|}.

(** A document whose first slot holds a number. *)
Definition numeric_slot_0 : gmap pystr pyval :=
  <[py "0 data" := PInt 7]> ∅.

(** * Theorems *)

(** A decidable statement about concrete values is settled by evaluation. *)
Ltac by_evaluation := apply (bool_decide_unpack _); vm_compute; exact I.

(** ** The error monad *)

Lemma bind_Ok {A B} (m : result A) (f : A -> result B) (b : B) :
  m ≫= f = Ok b <-> exists a, m = Ok a /\ f a = Ok b.
Proof.
  destruct m as [a|e]; simpl; split.
  - intros Hf. exists a. done.
  - intros (a' & [= <-] & Hf). done.
  - intros [=].
  - intros (a' & [=] & _).
Qed.

Lemma getitem_Some {V} (d : gmap pystr V) key v :
  d !! key = Some v -> getitem d key = Ok v.
Proof. unfold getitem. by intros ->. Qed.

Lemma getitem_None {V} (d : gmap pystr V) key :
  d !! key = None -> getitem d key = Raise (KeyError key).
Proof. unfold getitem. by intros ->. Qed.

(** ** The power model *)

Section PowerModelFacts.
Context `{PyNum num} (C : constants num).

Lemma getitem_gradient statName :
  known_attribute C statName ->
  getitem (POWER_GRADIENT C) statName = Ok (gradient C statName).
Proof.
  intros [g Hg]. unfold gradient. rewrite Hg. by apply getitem_Some.
Qed.

(** On known attributes the loop adds the products to the running total. *)
Lemma powerDelta_loop_known stats delta :
  Forall (fun kv => known_attribute C kv.1) stats ->
  powerDelta_loop C stats delta
  = Ok (fold_left nadd (map (fun kv => nmul (gradient C kv.1) kv.2) stats)
          delta).
Proof.
  intros Hknown. revert delta.
  induction Hknown as [|[statName statVal] rest Hk _ IH]; intros delta.
  - reflexivity.
  - cbn [powerDelta_loop]. simpl in Hk.
    rewrite (getitem_gradient _ Hk). simpl. apply IH.
Qed.

(** The loop stops at the first attribute that the table lacks. *)
Lemma powerDelta_loop_unknown stats delta :
  Exists (fun kv => POWER_GRADIENT C !! kv.1 = None) stats ->
  exists statName,
    statName ∈ stats.*1 /\ POWER_GRADIENT C !! statName = None /\
    powerDelta_loop C stats delta = Raise (KeyError statName).
Proof.
  revert delta. induction stats as [|[statName statVal] rest IH];
    intros delta Hex.
  - by apply Exists_nil in Hex.
  - cbn [powerDelta_loop].
    destruct (POWER_GRADIENT C !! statName) as [g|] eqn:Hg.
    + rewrite (getitem_Some _ _ _ Hg). simpl.
      apply Exists_cons in Hex as [Hhd|Htl].
      * simpl in Hhd. congruence.
      * destruct (IH (nadd delta (nmul g statVal)) Htl)
          as (name & Hin & Hnone & Hraise).
        exists name. split; [|done].
        simpl. by apply list_elem_of_further.
    + exists statName. rewrite (getitem_None _ _ Hg). simpl.
      split; [|done]. simpl. apply list_elem_of_here.
Qed.

(** C5: on a mapping of known attributes, [powerDelta] returns the sum of
    [gradient[attribute] * delta[attribute]] over its items and [power]
    returns [POWER_AT_ORIGIN] plus that sum; the power of the empty mapping
    is [POWER_AT_ORIGIN], and a zero delta of a known attribute gives a
    zero [powerDelta].  The numbers are any with [x + 0 = x] and
    [x * 0 = 0]. *)
Theorem powerDelta_power_sum
    (nadd_0_r : forall x : num, nadd x nzero = x)
    (nmul_0_r : forall x : num, nmul x nzero = nzero)
    (stats : list (pystr * num)) :
  Forall (fun kv => known_attribute C kv.1) stats ->
  powerDelta C stats = Ok (weighted_sum C stats) /\
  power C stats = Ok (nadd (POWER_AT_ORIGIN C) (weighted_sum C stats)) /\
  power C [] = Ok (POWER_AT_ORIGIN C) /\
  forall A, known_attribute C A -> powerDelta C [(A, nzero)] = Ok nzero.
Proof.
  intros Hknown.
  assert (Hdelta : powerDelta C stats = Ok (weighted_sum C stats))
    by apply (powerDelta_loop_known _ _ Hknown).
  split; [done|]. split; [|split].
  - unfold power. by rewrite Hdelta.
  - unfold power, powerDelta. simpl. by rewrite nadd_0_r.
  - intros A HA. unfold powerDelta. cbn [powerDelta_loop].
    rewrite (getitem_gradient _ HA). simpl.
    by rewrite nmul_0_r, nadd_0_r.
Qed.

(** C6: on a mapping with an attribute that the gradient table lacks,
    [powerDelta] raises the [KeyError] of such an attribute, and so returns
    no number. *)
Theorem powerDelta_unknown_attribute (stats : list (pystr * num)) :
  (exists statName,
     statName ∈ stats.*1 /\ POWER_GRADIENT C !! statName = None) ->
  (exists statName,
     statName ∈ stats.*1 /\ POWER_GRADIENT C !! statName = None /\
     powerDelta C stats = Raise (KeyError statName) /\
     power C stats = Raise (KeyError statName)) /\
  forall delta, powerDelta C stats <> Ok delta.
Proof.
  intros (name & Hin & Hnone).
  assert (Hex : Exists (fun kv => POWER_GRADIENT C !! kv.1 = None) stats).
  { apply Exists_exists. apply list_elem_of_fmap in Hin as (kv & -> & Hkv).
    by exists kv. }
  destruct (powerDelta_loop_unknown stats nzero Hex)
    as (bad & Hbad & Hlack & Hraise).
  split.
  - exists bad. unfold power, powerDelta. by rewrite Hraise.
  - intros delta. unfold powerDelta. by rewrite Hraise.
Qed.

Lemma maxStat_entry_maxValue (maxValue p : num) :
  maxStat_entry maxValue p !! py "maxValue" = Some maxValue.
Proof. unfold maxStat_entry. apply lookup_insert_eq. Qed.

Lemma maxStat_entry_power (maxValue p : num) :
  maxStat_entry maxValue p !! py "power" = Some p.
Proof.
  unfold maxStat_entry. rewrite lookup_insert_ne by (vm_compute; congruence).
  apply lookup_insert_eq.
Qed.

Lemma fifth_is_last (levels : list num) :
  length levels = 5%nat ->
  exists maxValue, levels !! 4%nat = Some maxValue /\ last levels = Some maxValue.
Proof.
  intros Hlen.
  destruct levels as [|a [|b [|c [|d [|e [|f l]]]]]]; simpl in Hlen;
    try discriminate Hlen.
  by exists e.
Qed.

Lemma maxParticleStats_loop_spec items maxStats :
  NoDup items.*1 ->
  Forall (fun kv =>
            is_Some (POWER_GRADIENT C !! kv.1) /\
            length <$> (kv.2 !! py "Legendary") = Some 5%nat) items ->
  exists table,
    maxParticleStats_loop C items maxStats = Ok table /\
    dom table = list_to_set items.*1 ∪ dom maxStats /\
    (forall statName, statName ∉ items.*1 ->
       table !! statName = maxStats !! statName) /\
    (forall statName data, (statName, data) ∈ items ->
       exists entry, table !! statName = Some entry /\
                     maxStat_of C statName data entry).
Proof.
  revert maxStats.
  induction items as [|[statName data] rest IH]; intros maxStats Hnd Hok.
  - exists maxStats. simpl. split; [done|]. split; [set_solver|].
    split; [done|]. intros ? ? Hin. by apply elem_of_nil in Hin.
  - simpl in Hnd. apply NoDup_cons in Hnd as [Hfresh Hnd].
    apply Forall_cons in Hok as [[Hknown Hfive] Hok]. simpl in Hknown, Hfive.
    destruct (data !! py "Legendary") as [levels|] eqn:Hleg;
      [|discriminate Hfive].
    injection Hfive as Hlen.
    destruct (fifth_is_last levels Hlen) as (maxValue & H4 & Hlast).
    cbn [maxParticleStats_loop].
    rewrite (getitem_Some _ _ _ Hleg). simpl.
    unfold list_getitem. rewrite H4. simpl.
    unfold powerDelta at 1. cbn [powerDelta_loop].
    rewrite (getitem_gradient _ Hknown). simpl.
    set (p := nadd nzero (nmul (gradient C statName) maxValue)).
    destruct (IH (<[statName := maxStat_entry maxValue p]> maxStats) Hnd Hok)
      as (table & Hrun & Hdom & Hframe & Hentries).
    exists table. split; [done|]. split; [|split].
    + rewrite Hdom, dom_insert_L. set_solver.
    + intros n Hn. apply not_elem_of_cons in Hn as [Hne Hn].
      rewrite (Hframe n Hn). by apply lookup_insert_ne.
    + intros n d Hin. apply elem_of_cons in Hin as [[= -> ->]|Hin].
      * exists (maxStat_entry maxValue p). split.
        { rewrite (Hframe statName Hfresh). apply lookup_insert_eq. }
        exists levels, maxValue, p.
        split; [done|]. split; [done|]. split; [done|]. split.
        { unfold powerDelta. cbn [powerDelta_loop].
          by rewrite (getitem_gradient _ Hknown). }
        split; [apply maxStat_entry_maxValue | apply maxStat_entry_power].
      * by apply Hentries.
Qed.

(** C7: when the tier table has the shape the code reads it in,
    [maxParticleStats] returns a table whose keys are exactly the
    attributes of the tier table; the entry of an attribute holds, as
    [maxValue], the last (fifth) level of its ['Legendary'] tier and, as
    [power], the [powerDelta] of the mapping of that attribute alone to
    [maxValue]. *)
Theorem maxParticleStats_entries :
  tier_table_ok C ->
  exists table,
    maxParticleStats C = Ok table /\
    dom table = list_to_set (PART_STAT_VALUES C).*1 /\
    forall statName data, (statName, data) ∈ PART_STAT_VALUES C ->
      exists entry, table !! statName = Some entry /\
                    maxStat_of C statName data entry.
Proof.
  intros [Hnd Hok].
  destruct (maxParticleStats_loop_spec (PART_STAT_VALUES C) ∅ Hnd Hok)
    as (table & Hrun & Hdom & _ & Hentries).
  exists table. split; [done|]. split; [|done].
  rewrite Hdom. set_solver.
Qed.

End PowerModelFacts.

Lemma powerDelta_power_sum_witness :
  let stats := [(py "Attack", 3); (py "Health", 4)] in
  (forall x : Z, nadd x nzero = x) /\
  (forall x : Z, nmul x nzero = nzero) /\
  Forall (fun kv => known_attribute sample_constants kv.1) stats /\
  powerDelta sample_constants stats = Ok 26 /\
  power sample_constants stats = Ok 126.
Proof.
  intros stats.
  assert (H0 : forall x : Z, nadd x nzero = x) by (intros x; simpl; lia).
  assert (H1 : forall x : Z, nmul x nzero = nzero) by (intros x; simpl; lia).
  assert (Hk : Forall (fun kv => known_attribute sample_constants kv.1) stats)
    by (unfold known_attribute; by_evaluation).
  split; [exact H0|]. split; [exact H1|]. split; [exact Hk|].
  destruct (powerDelta_power_sum sample_constants H0 H1 stats Hk)
    as (Hdelta & Hpower & _).
  split; [exact Hdelta | exact Hpower].
Defined.

Lemma powerDelta_unknown_attribute_witness :
  let stats := [(py "Attack", 3); (py "Speed", 4)] in
  (exists statName,
     statName ∈ stats.*1 /\
     POWER_GRADIENT sample_constants !! statName = None) /\
  powerDelta sample_constants stats = Raise (KeyError (py "Speed")).
Proof.
  intros stats.
  assert (Hlack : exists statName,
            statName ∈ stats.*1 /\
            POWER_GRADIENT sample_constants !! statName = None).
  { exists (py "Speed"). split; [by_evaluation | vm_compute; reflexivity]. }
  split; [exact Hlack|].
  destruct (powerDelta_unknown_attribute sample_constants stats Hlack)
    as [(bad & _ & _ & Hraise & _) _].
  rewrite Hraise. vm_compute in Hraise. symmetry. exact Hraise.
Defined.

Lemma maxParticleStats_entries_witness :
  tier_table_ok sample_constants /\
  exists table,
    maxParticleStats sample_constants = Ok table /\
    dom table = {[ py "Attack"; py "Health" ]}.
Proof.
  assert (Hok : tier_table_ok sample_constants)
    by (unfold tier_table_ok; by_evaluation).
  split; [exact Hok|].
  destruct (maxParticleStats_entries sample_constants Hok)
    as (table & Hrun & Hdom & _).
  exists table. split; [exact Hrun|]. rewrite Hdom. by_evaluation.
Defined.

(** ** The slot decoder *)

Lemma slot_key_0 : slot_key 0 = py "0 data".
Proof. reflexivity. Qed.
Lemma slot_key_1 : slot_key 1 = py "1 data".
Proof. reflexivity. Qed.
Lemma slot_key_2 : slot_key 2 = py "2 data".
Proof. reflexivity. Qed.

Lemma slot_index_cases (i : Z) : 0 <= i < 3 -> i = 0 \/ i = 1 \/ i = 2.
Proof. lia. Qed.

Lemma slot_key_inj (i j : Z) :
  0 <= i < 3 -> 0 <= j < 3 -> slot_key i = slot_key j -> i = j.
Proof.
  intros Hi Hj.
  destruct (slot_index_cases i Hi) as [-> | [-> | ->]];
    destruct (slot_index_cases j Hj) as [-> | [-> | ->]];
    try reflexivity; vm_compute; intros [=].
Qed.

Section SlotDecoder.
Context (L : Lib).

(** One round of the loop replaces the field of its slot by the outcome
    of that field, and raises what the outcome raises. *)
Lemma decode_slot_outcome (saveFile : gmap pystr pyval) (i : Z) :
  decode_slot L saveFile i
  = (p ← slot_outcome L (saveFile !! slot_key i);
     Ok (<[slot_key i := p]> saveFile)).
Proof.
  unfold decode_slot, slot_outcome, dict_get.
  destruct (saveFile !! slot_key i) as [v|] eqn:Hfield; simpl.
  - destruct (py_len v) as [n|e]; simpl; [|done].
    destruct (n =? 0); [done|].
    rewrite (getitem_Some _ _ _ Hfield). simpl.
    by destruct (decode_payload L v).
  - done.
Qed.

(** The three rounds: every slot is decoded from the field that the
    document had when it was loaded. *)
Lemma decode_slots_outcomes (d : gmap pystr pyval) :
  decode_slots L d
  = (p0 ← slot_outcome L (d !! slot_key 0);
     p1 ← slot_outcome L (d !! slot_key 1);
     p2 ← slot_outcome L (d !! slot_key 2);
     Ok (<[slot_key 2 := p2]> (<[slot_key 1 := p1]> (<[slot_key 0 := p0]> d)))).
Proof.
  unfold decode_slots. change (py_range 3) with [0; 1; 2].
  cbn [for_in]. rewrite decode_slot_outcome.
  destruct (slot_outcome L (d !! slot_key 0)) as [p0|e0]; simpl; [|done].
  rewrite decode_slot_outcome.
  rewrite lookup_insert_ne by (vm_compute; congruence).
  destruct (slot_outcome L (d !! slot_key 1)) as [p1|e1]; simpl; [|done].
  rewrite decode_slot_outcome.
  rewrite !lookup_insert_ne by (vm_compute; congruence).
  by destruct (slot_outcome L (d !! slot_key 2)) as [p2|e2].
Qed.

Lemma slot_outcome_empty (field : option pyval) :
  empty_field field -> slot_outcome L field = Ok (PDict ∅).
Proof.
  intros [->|(v & -> & Hlen)]; unfold slot_outcome; simpl; [done|].
  by rewrite Hlen.
Qed.

Lemma slot_outcome_populated (field : option pyval) (v : pyval) :
  populated_field field v -> slot_outcome L field = decode_payload L v.
Proof.
  intros (-> & n & Hlen & Hn). unfold slot_outcome. simpl. rewrite Hlen.
  simpl. by destruct (Z.eqb_spec n 0).
Qed.

(** The payload of a populated field is what the stages give, in their
    order. *)
Lemma decode_payload_stages (v payload : pyval) :
  decode_payload L v = Ok payload <-> slot_stages L v payload.
Proof.
  unfold decode_payload. split.
  - intros Hrun. apply bind_Ok in Hrun as (plain & Hdec & Hrun).
    apply bind_Ok in Hrun as (text & Htext & Hload).
    case_bool_decide as Hmark.
    + by eapply stages_compressed.
    + injection Htext as <-. by eapply stages_plain.
  - intros [plain Hdec Hmark Hload|plain text Hdec Hmark Hz Hload];
      rewrite Hdec; simpl.
    + by rewrite bool_decide_eq_false_2.
    + rewrite bool_decide_eq_true_2 by done. by rewrite Hz.
Qed.

(** What the decoder writes for the slots, when it returns. *)
Lemma decode_slots_lookup (d out : gmap pystr pyval) (i : Z) :
  0 <= i < 3 ->
  decode_slots L d = Ok out ->
  exists p, slot_outcome L (d !! slot_key i) = Ok p /\
            out !! slot_key i = Some p.
Proof.
  intros Hi. rewrite decode_slots_outcomes. intros Hrun.
  apply bind_Ok in Hrun as (p0 & H0 & Hrun).
  apply bind_Ok in Hrun as (p1 & H1 & Hrun).
  apply bind_Ok in Hrun as (p2 & H2 & Hrun).
  injection Hrun as <-.
  destruct (slot_index_cases i Hi) as [-> | [-> | ->]].
  - exists p0. split; [done|].
    rewrite !lookup_insert_ne by (vm_compute; congruence).
    apply lookup_insert_eq.
  - exists p1. split; [done|].
    rewrite lookup_insert_ne by (vm_compute; congruence).
    apply lookup_insert_eq.
  - exists p2. split; [done|]. apply lookup_insert_eq.
Qed.

Lemma decode_slots_frame (d out : gmap pystr pyval) (key : pystr) :
  decode_slots L d = Ok out ->
  (forall i, 0 <= i < 3 -> key <> slot_key i) ->
  out !! key = d !! key.
Proof.
  rewrite decode_slots_outcomes. intros Hrun Hkey.
  apply bind_Ok in Hrun as (p0 & H0 & Hrun).
  apply bind_Ok in Hrun as (p1 & H1 & Hrun).
  apply bind_Ok in Hrun as (p2 & H2 & Hrun).
  injection Hrun as <-.
  rewrite !lookup_insert_ne; [done|..]; intros Heq; symmetry in Heq;
    revert Heq; apply Hkey; lia.
Qed.

Lemma decode_slots_returns (d : gmap pystr pyval) :
  (forall i, 0 <= i < 3 -> exists p, slot_outcome L (d !! slot_key i) = Ok p)
  <-> exists out, decode_slots L d = Ok out.
Proof.
  split.
  - intros Hall. rewrite decode_slots_outcomes.
    destruct (Hall 0) as [p0 ->]; [lia|].
    destruct (Hall 1) as [p1 ->]; [lia|].
    destruct (Hall 2) as [p2 ->]; [lia|].
    by eexists.
  - intros [out Hrun] i Hi.
    destruct (decode_slots_lookup d out i Hi Hrun) as (p & Hp & _).
    by exists p.
Qed.

End SlotDecoder.


(** C2: a slot whose field is absent or empty decodes to the empty
    mapping.  Its round of the loop returns, on any state of the document
    that has the same field; whenever the decoder returns, the slot holds the
    empty mapping; and a document whose three slots are all absent or empty
    is decoded without an error. *)
Theorem empty_slot_decodes_empty (L : Lib) (d : gmap pystr pyval) (i : Z) :
  0 <= i < 3 ->
  empty_field (d !! slot_key i) ->
  (forall saveFile,
     saveFile !! slot_key i = d !! slot_key i ->
     decode_slot L saveFile i = Ok (<[slot_key i := PDict ∅]> saveFile)) /\
  (forall out,
     decode_slots L d = Ok out -> out !! slot_key i = Some (PDict ∅)) /\
  ((forall j, 0 <= j < 3 -> empty_field (d !! slot_key j)) ->
   exists out, decode_slots L d = Ok out).
Proof.
  intros Hi Hempty. split; [|split].
  - intros saveFile Hsame. rewrite decode_slot_outcome, Hsame.
    by rewrite (slot_outcome_empty L _ Hempty).
  - intros out Hrun.
    destruct (decode_slots_lookup L d out i Hi Hrun) as (p & Hp & Hout).
    rewrite (slot_outcome_empty L _ Hempty) in Hp. by injection Hp as <-.
  - intros Hall. apply decode_slots_returns. intros j Hj.
    exists (PDict ∅). apply slot_outcome_empty. by apply Hall.
Qed.

(** The exception of a failing stage is the exception of the payload. *)
Lemma stage_failure_payload (L : Lib) (v : pyval) (e : exn) :
  stage_failure L v e -> decode_payload L v = Raise e.
Proof.
  unfold decode_payload.
  intros [Hdec|plain Hdec Hmark Hz|plain Hdec Hmark Hload
          |plain text Hdec Hmark Hz Hload];
    rewrite Hdec; cbn [mbind result_bind]; [done|..].
  - rewrite bool_decide_eq_true_2 by done. by rewrite Hz.
  - by rewrite bool_decide_eq_false_2.
  - rewrite bool_decide_eq_true_2 by done. by rewrite Hz.
Qed.

Lemma slot_decodes_outcome (L : Lib) (field : option pyval) :
  slot_decodes L field -> exists p, slot_outcome L field = Ok p.
Proof.
  intros [Hempty|(v & payload & Hpop & Hstages)].
  - exists (PDict ∅). by apply slot_outcome_empty.
  - exists payload. rewrite (slot_outcome_populated L field v Hpop).
    by apply decode_payload_stages.
Qed.

(** C3, as amended: when the slots before a populated slot decode and a
    stage of that slot fails, the exception that [AESdecrypt],
    [decompressData] or [json.loads] raised there leaves the decoder as it
    is; and a document with a populated slot of which a stage fails is never
    decoded. *)
Theorem slot_failure_propagates (L : Lib) (d : gmap pystr pyval) (i : Z)
    (e : exn) :
  first_failure L d i e ->
  decode_slots L d = Raise e /\
  (forall w, load_plist w (saveFilePath w) = Ok d ->
             decryptSaveFile L w = Raise e) /\
  (forall d' j v e',
     0 <= j < 3 -> populated_field (d' !! slot_key j) v ->
     stage_failure L v e' ->
     forall out, decode_slots L d' <> Ok out).
Proof.
  intros (Hi & (v & Hpop & Hstage) & Hbefore).
  pose proof (stage_failure_payload L v e Hstage) as Hfail.
  assert (Hraise : decode_slots L d = Raise e).
  { rewrite decode_slots_outcomes.
    pose proof (slot_outcome_populated L _ v Hpop) as Hout.
    rewrite Hfail in Hout.
    destruct (slot_index_cases i Hi) as [-> | [-> | ->]].
    - by rewrite Hout.
    - destruct (slot_decodes_outcome L _ (Hbefore 0 ltac:(lia))) as [p0 ->].
      simpl. by rewrite Hout.
    - destruct (slot_decodes_outcome L _ (Hbefore 0 ltac:(lia))) as [p0 ->].
      destruct (slot_decodes_outcome L _ (Hbefore 1 ltac:(lia))) as [p1 ->].
      simpl. by rewrite Hout. }
  split; [done|]. split.
  - intros w Hload. unfold decryptSaveFile. by rewrite Hload.
  - intros d' j v' e' Hj Hpop' Hstage' out Hrun.
    pose proof (stage_failure_payload L v' e' Hstage') as Hfail'.
    destruct (decode_slots_lookup L d' out j Hj Hrun) as (p & Hp & _).
    rewrite (slot_outcome_populated L _ v' Hpop') in Hp. congruence.
Qed.

(** C9: [decryptSaveFile] returns exactly when the document loads and its
    three slots decode; the result then agrees with the loaded document on
    every key other than the three slot keys, its keys are those of the
    loaded document and the slot keys, and a slot key that the document
    lacked is mapped to the empty mapping. *)
Theorem decryptSaveFile_frame (L : Lib) (w : World) (d : gmap pystr pyval) :
  load_plist w (saveFilePath w) = Ok d ->
  ((forall i, 0 <= i < 3 -> exists p, slot_outcome L (d !! slot_key i) = Ok p)
   <-> exists out, decryptSaveFile L w = Ok out) /\
  forall out, decryptSaveFile L w = Ok out ->
    (forall key, key ∉ [py "0 data"; py "1 data"; py "2 data"] ->
                 out !! key = d !! key) /\
    dom out = dom d ∪ {[ py "0 data"; py "1 data"; py "2 data" ]} /\
    (forall i, 0 <= i < 3 -> d !! slot_key i = None ->
               out !! slot_key i = Some (PDict ∅)).
Proof.
  intros Hload. unfold decryptSaveFile. rewrite Hload. simpl.
  split; [apply decode_slots_returns|].
  intros out Hrun. split; [|split].
  - intros key Hkey. apply (decode_slots_frame L d out key Hrun).
    intros i Hi ->. apply Hkey.
    destruct (slot_index_cases i Hi) as [-> | [-> | ->]];
      rewrite ?slot_key_0, ?slot_key_1, ?slot_key_2; set_solver.
  - rewrite decode_slots_outcomes in Hrun.
    apply bind_Ok in Hrun as (p0 & H0 & Hrun).
    apply bind_Ok in Hrun as (p1 & H1 & Hrun).
    apply bind_Ok in Hrun as (p2 & H2 & Hrun).
    injection Hrun as <-.
    rewrite !dom_insert_L, slot_key_0, slot_key_1, slot_key_2. set_solver.
  - intros i Hi Habsent.
    destruct (decode_slots_lookup L d out i Hi Hrun) as (p & Hp & Hout).
    rewrite (slot_outcome_empty L (d !! slot_key i)) in Hp
      by (by left).
    by injection Hp as <-.
Qed.


Lemma empty_slot_decodes_empty_witness :
  0 <= 1 < 3 /\
  empty_field (sample_saveFile !! slot_key 1) /\
  decode_slot sample_lib sample_saveFile 1
  = Ok (<[slot_key 1 := PDict ∅]> sample_saveFile).
Proof.
  assert (Hi : 0 <= 1 < 3) by lia.
  assert (Hempty : empty_field (sample_saveFile !! slot_key 1)).
  { right. exists (PStr []). split; vm_compute; reflexivity. }
  split; [exact Hi|]. split; [exact Hempty|].
  destruct (empty_slot_decodes_empty sample_lib sample_saveFile 1 Hi Hempty)
    as [Hround _].
  apply Hround. reflexivity.
Defined.

Lemma slot_failure_propagates_witness :
  first_failure sample_lib corrupt_slot_1 1 JSONDecodeError /\
  json_loads sample_lib (py "{") = Raise JSONDecodeError /\
  decode_slots sample_lib corrupt_slot_1 = Raise JSONDecodeError.
Proof.
  assert (Hfail : first_failure sample_lib corrupt_slot_1 1 JSONDecodeError).
  { split; [lia|]. split.
    - exists (PStr (py "c2")). split.
      + split; [vm_compute; reflexivity|].
        exists 2. split; [reflexivity | lia].
      + apply (parsing_fails_plain _ _ _ (py "{"));
          vm_compute; (reflexivity || congruence).
    - intros j Hj. assert (j = 0) as -> by lia.
      left. left. vm_compute. reflexivity. }
  split; [exact Hfail|]. split; [vm_compute; reflexivity|].
  destruct (slot_failure_propagates sample_lib corrupt_slot_1 1 _ Hfail)
    as [Hraise _].
  exact Hraise.
Defined.

Lemma decryptSaveFile_frame_witness :
  load_plist sample_world (saveFilePath sample_world) = Ok sample_saveFile /\
  exists out,
    decryptSaveFile sample_lib sample_world = Ok out /\
    out !! py "version" = Some (PInt 13).
Proof.
  assert (Hload : load_plist sample_world (saveFilePath sample_world)
                  = Ok sample_saveFile) by (vm_compute; reflexivity).
  split; [exact Hload|].
  destruct (decryptSaveFile_frame sample_lib sample_world _ Hload)
    as [[Hreturns _] Hframe].
  destruct Hreturns as [out Hrun].
  { intros i Hi.
    destruct (slot_index_cases i Hi) as [-> | [-> | ->]];
      [exists (PDict ∅) | exists (PDict ∅) | exists (PList [PInt 1])];
      vm_compute; reflexivity. }
  exists out. split; [exact Hrun|].
  destruct (Hframe out Hrun) as (Hother & _).
  rewrite Hother; [vm_compute; reflexivity | by_evaluation].
Defined.

(** C3, as stated, fails: the same exception leaves the decoder whether
    slot 0 or slot 1 is the corrupt one, so that no slot index can be read
    off it. *)
Lemma slot_error_names_no_slot :
  first_failure sample_lib corrupt_slot_0 0 JSONDecodeError /\
  first_failure sample_lib corrupt_slot_1 1 JSONDecodeError /\
  decode_slots sample_lib corrupt_slot_0 = Raise JSONDecodeError /\
  decode_slots sample_lib corrupt_slot_1 = Raise JSONDecodeError /\
  ~ exists slot_of, slot_index_carried slot_of.
Proof.
  assert (H0 : first_failure sample_lib corrupt_slot_0 0 JSONDecodeError).
  { split; [lia|]. split.
    - exists (PStr (py "c2")). split.
      + split; [vm_compute; reflexivity|].
        exists 2. split; [reflexivity | lia].
      + apply (parsing_fails_plain _ _ _ (py "{"));
          vm_compute; (reflexivity || congruence).
    - intros j Hj. lia. }
  assert (H1 : first_failure sample_lib corrupt_slot_1 1 JSONDecodeError).
  { split; [lia|]. split.
    - exists (PStr (py "c2")). split.
      + split; [vm_compute; reflexivity|].
        exists 2. split; [reflexivity | lia].
      + apply (parsing_fails_plain _ _ _ (py "{"));
          vm_compute; (reflexivity || congruence).
    - intros j Hj. assert (j = 0) as -> by lia.
      left. left. vm_compute. reflexivity. }
  assert (R0 : decode_slots sample_lib corrupt_slot_0 = Raise JSONDecodeError)
    by (vm_compute; reflexivity).
  assert (R1 : decode_slots sample_lib corrupt_slot_1 = Raise JSONDecodeError)
    by (vm_compute; reflexivity).
  split; [exact H0|]. split; [exact H1|]. split; [exact R0|].
  split; [exact R1|].
  intros [slot_of Hcarried].
  destruct (Hcarried _ _ _ _ H0) as (e0 & He0 & Htag0).
  destruct (Hcarried _ _ _ _ H1) as (e1 & He1 & Htag1).
  rewrite R0 in He0. rewrite R1 in He1.
  injection He0 as <-. injection He1 as <-.
  rewrite Htag0 in Htag1. discriminate Htag1.
Qed.

(** ** Text encodings and base64 *)

Lemma a2b_skip (x : Z) (rest : list Z) (q l p : Z) (b : list Z) :
  x <> BASE64_PAD -> 64 <= table_a2b_base64 x ->
  a2b_base64_loop (x :: rest) q l p b = a2b_base64_loop rest q l p b.
Proof.
  intros Hpad Hout. cbn [a2b_base64_loop].
  destruct (Z.eqb_spec x BASE64_PAD) as [|_]; [done|].
  destruct (Z.leb_spec 64 (table_a2b_base64 x)); [done|lia].
Qed.

Lemma a2b_interleave (text : list Z) : forall (q l p : Z) (b : list Z),
  a2b_base64_loop (flat_map (fun c => [c; 0]) text) q l p b
  = a2b_base64_loop text q l p b.
Proof.
  induction text as [|c rest IH]; intros q l p b; [done|].
  cbn [flat_map app a2b_base64_loop].
  repeat case_match; try done;
    rewrite a2b_skip by (vm_compute; (congruence || done)); apply IH.
Qed.

Lemma unit_le_ascii (c : Z) : is_ascii c -> unit_le c = [c; 0].
Proof.
  intros Hc. unfold unit_le, is_ascii in *.
  change 0xFF with (Z.ones 8). rewrite Z.land_ones by lia.
  rewrite Z.shiftr_div_pow2 by lia.
  rewrite Z.mod_small by lia. rewrite Z.div_small by lia. done.
Qed.

Lemma utf16_units_ascii (c : Z) : is_ascii c -> utf16_units c = Ok [c].
Proof.
  intros Hc. unfold utf16_units, is_ascii in *.
  repeat case_match; try done; lia.
Qed.

Lemma utf16_le_ascii (text : list Z) :
  Forall is_ascii text ->
  utf16_le text = Ok (flat_map (fun c => [c; 0]) text).
Proof.
  induction 1 as [|c rest Hc _ IH]; [done|].
  cbn [utf16_le]. rewrite (utf16_units_ascii c Hc), IH.
  cbn -[unit_le]. by rewrite (unit_le_ascii c Hc).
Qed.

Lemma encode_ascii_ascii (text : list Z) :
  Forall is_ascii text -> encode_ascii text = Ok text.
Proof.
  induction 1 as [|c rest Hc _ IH]; [done|].
  cbn [encode_ascii]. unfold is_ascii in Hc.
  destruct (Z.leb_spec 0 c); [|lia]. destruct (Z.ltb_spec c 128); [|lia].
  simpl. by rewrite IH.
Qed.

Lemma decode_ascii_ascii (data : list Z) :
  Forall is_ascii data -> decode_ascii data = Ok data.
Proof.
  induction 1 as [|c rest Hc _ IH]; [done|].
  cbn [decode_ascii]. unfold is_ascii in Hc.
  destruct (Z.leb_spec 0 c); [|lia]. destruct (Z.ltb_spec c 128); [|lia].
  simpl. by rewrite IH.
Qed.

Lemma encode_utf16_ascii (text : list Z) :
  Forall is_ascii text ->
  encode_utf16 text = Ok (0xFF :: 0xFE :: flat_map (fun c => [c; 0]) text).
Proof.
  intros Hascii. unfold encode_utf16. by rewrite (utf16_le_ascii text Hascii).
Qed.

(** Decoding skips the byte-order mark and the zero bytes. *)
Lemma b64decode_utf16_bytes (text : list Z) :
  b64decode (0xFF :: 0xFE :: flat_map (fun c => [c; 0]) text)
  = b64decode text.
Proof.
  unfold b64decode.
  rewrite !a2b_skip by (vm_compute; (congruence || done)).
  apply a2b_interleave.
Qed.

Lemma base64_char_ascii (c : Z) : base64_char c -> is_ascii c.
Proof.
  unfold base64_char, is_ascii, table_a2b_base64, BASE64_PAD.
  intros [Hv| ->]; [|lia].
  repeat case_match; lia.
Qed.

Lemma decompressData_on_ascii_text (L : Lib) (text : list Z) :
  Forall is_ascii text ->
  decompressData L text = decompressData_ascii L text.
Proof.
  intros Hascii. unfold decompressData, decompressData_ascii.
  rewrite (encode_ascii_ascii text Hascii), (encode_utf16_ascii text Hascii).
  simpl. by rewrite b64decode_utf16_bytes.
Qed.

(** The decoder on a few texts, as CPython decodes them. *)
Example b64decode_padded : b64decode (py "QQ==") = Ok [65].
Proof. reflexivity. Qed.

Example b64decode_short_padding : b64decode (py "QQ=") = Raise BinasciiError.
Proof. reflexivity. Qed.

Example b64decode_data_after_padding : b64decode (py "QQ=Q=") = Ok [65; 4].
Proof. reflexivity. Qed.

Example b64decode_skips : b64decode [81; 0; 81; 255; 61; 0; 61] = Ok [65].
Proof. reflexivity. Qed.

Example encode_utf16_sample :
  encode_utf16 (py "QQ==") = Ok [255; 254; 81; 0; 81; 0; 61; 0; 61; 0].
Proof. reflexivity. Qed.

Example slot_keys : slot_key <$> py_range 3 = [py "0 data"; py "1 data"; py "2 data"].
Proof. reflexivity. Qed.

(** ** Base64 round trip *)

Lemma byte_in_bytes256 (b : Z) : is_byte b -> b ∈ bytes256.
Proof.
  intros Hb. unfold bytes256. apply list_elem_of_fmap.
  exists (Z.to_nat b). split; [unfold is_byte in Hb; lia|].
  apply elem_of_seq. unfold is_byte in Hb. lia.
Qed.

Lemma forall_bytes (P : Z -> bool) :
  forallb P bytes256 = true -> forall b, is_byte b -> P b = true.
Proof.
  intros Hall b Hb. rewrite forallb_forall in Hall. apply Hall.
  apply list_elem_of_In. by apply byte_in_bytes256.
Qed.

Lemma forall_bytes2 (P : Z -> Z -> bool) :
  forallb (fun a => forallb (P a) bytes256) bytes256 = true ->
  forall a b, is_byte a -> is_byte b -> P a b = true.
Proof.
  intros Hall a b Ha Hb.
  apply (forall_bytes (P a)); [|done].
  by apply (forall_bytes (fun a => forallb (P a) bytes256)).
Qed.

Lemma group_ok_all (a b : Z) : is_byte a -> is_byte b -> group_ok a b = true.
Proof. apply forall_bytes2. vm_compute. reflexivity. Qed.

Lemma sextet_facts (v : Z) :
  sextet_ok v = true ->
  table_a2b_base64 (table_b2a_base64 v) = v /\
  table_b2a_base64 v <> BASE64_PAD /\
  is_ascii (table_b2a_base64 v) /\ 0 <= v < 64.
Proof.
  unfold sextet_ok, is_ascii. rewrite !andb_true_iff, negb_true_iff.
  rewrite Z.eqb_eq, Z.eqb_neq, !Z.leb_le, !Z.ltb_lt. tauto.
Qed.

Lemma group_facts (a b : Z) :
  is_byte a -> is_byte b ->
  sextet_ok (enc0 a) = true /\ sextet_ok (enc1 a b) = true /\
  sextet_ok (enc2 a b) = true /\ sextet_ok (enc3 a) = true /\
  Z.lor (Z.shiftl (enc0 a) 2) (Z.shiftr (enc1 a b) 4) = a /\
  Z.land (enc1 a b) 0x0f = Z.shiftr b 4 /\
  Z.shiftr (enc2 a b) 2 = Z.land a 0x0f /\
  Z.lor (Z.shiftl (Z.shiftr a 4) 4) (Z.land a 0x0f) = a /\
  Z.land (enc2 a b) 0x03 = Z.shiftr b 6 /\
  Z.lor (Z.shiftl (Z.shiftr a 6) 6) (enc3 a) = a.
Proof.
  intros Ha Hb. pose proof (group_ok_all a b Ha Hb) as Hok.
  unfold group_ok in Hok. rewrite !andb_true_iff, !Z.eqb_eq in Hok. tauto.
Qed.

Section DecodeSteps.
Context (v : Z) (Hv : sextet_ok v = true).
Context (rest : list Z) (l p : Z) (acc : list Z).

Lemma a2b_sextet_0 :
  a2b_base64_loop (table_b2a_base64 v :: rest) 0 l p acc
  = a2b_base64_loop rest 1 v 0 acc.
Proof.
  destruct (sextet_facts v Hv) as (Htab & Hpad & _ & Hrange).
  cbn [a2b_base64_loop]. rewrite Htab.
  destruct (Z.eqb_spec (table_b2a_base64 v) BASE64_PAD); [done|].
  destruct (Z.leb_spec 64 v); [lia|]. done.
Qed.

Lemma a2b_sextet_1 :
  a2b_base64_loop (table_b2a_base64 v :: rest) 1 l p acc
  = a2b_base64_loop rest 2 (Z.land v 0x0f) 0
      (acc ++ [Z.lor (Z.shiftl l 2) (Z.shiftr v 4)]).
Proof.
  destruct (sextet_facts v Hv) as (Htab & Hpad & _ & Hrange).
  cbn [a2b_base64_loop]. rewrite Htab.
  destruct (Z.eqb_spec (table_b2a_base64 v) BASE64_PAD); [done|].
  destruct (Z.leb_spec 64 v); [lia|]. done.
Qed.

Lemma a2b_sextet_2 :
  a2b_base64_loop (table_b2a_base64 v :: rest) 2 l p acc
  = a2b_base64_loop rest 3 (Z.land v 0x03) 0
      (acc ++ [Z.lor (Z.shiftl l 4) (Z.shiftr v 2)]).
Proof.
  destruct (sextet_facts v Hv) as (Htab & Hpad & _ & Hrange).
  cbn [a2b_base64_loop]. rewrite Htab.
  destruct (Z.eqb_spec (table_b2a_base64 v) BASE64_PAD); [done|].
  destruct (Z.leb_spec 64 v); [lia|]. done.
Qed.

Lemma a2b_sextet_3 :
  a2b_base64_loop (table_b2a_base64 v :: rest) 3 l p acc
  = a2b_base64_loop rest 0 0 0 (acc ++ [Z.lor (Z.shiftl l 6) v]).
Proof.
  destruct (sextet_facts v Hv) as (Htab & Hpad & _ & Hrange).
  cbn [a2b_base64_loop]. rewrite Htab.
  destruct (Z.eqb_spec (table_b2a_base64 v) BASE64_PAD); [done|].
  destruct (Z.leb_spec 64 v); [lia|]. done.
Qed.
End DecodeSteps.

Lemma zero_byte : is_byte 0.
Proof. unfold is_byte. lia. Qed.

(** The first byte of a group is out after two characters. *)
Lemma a2b_first_byte (a b : Z) (rest acc : list Z) :
  is_byte a -> is_byte b ->
  a2b_base64_loop
    (table_b2a_base64 (enc0 a) :: table_b2a_base64 (enc1 a b) :: rest)
    0 0 0 acc
  = a2b_base64_loop rest 2 (Z.shiftr b 4) 0 (acc ++ [a]).
Proof.
  intros Ha Hb.
  destruct (group_facts a b Ha Hb) as (H0 & H1 & _ & _ & Hbyte & Hleft & _).
  rewrite (a2b_sextet_0 _ H0), (a2b_sextet_1 _ H1).
  by rewrite Hbyte, Hleft.
Qed.

(** The second byte is out after the third character. *)
Lemma a2b_second_byte (b c : Z) (rest acc : list Z) :
  is_byte b -> is_byte c ->
  a2b_base64_loop (table_b2a_base64 (enc2 b c) :: rest)
    2 (Z.shiftr b 4) 0 acc
  = a2b_base64_loop rest 3 (Z.shiftr c 6) 0 (acc ++ [b]).
Proof.
  intros Hb Hc.
  destruct (group_facts b c Hb Hc)
    as (_ & _ & H2 & _ & _ & _ & Hhigh & Hbyte & Hleft & _).
  rewrite (a2b_sextet_2 _ H2). by rewrite Hhigh, Hbyte, Hleft.
Qed.

(** The third byte is out after the fourth character. *)
Lemma a2b_third_byte (c : Z) (rest acc : list Z) :
  is_byte c ->
  a2b_base64_loop (table_b2a_base64 (enc3 c) :: rest)
    3 (Z.shiftr c 6) 0 acc
  = a2b_base64_loop rest 0 0 0 (acc ++ [c]).
Proof.
  intros Hc.
  destruct (group_facts c 0 Hc zero_byte)
    as (_ & _ & _ & H3 & _ & _ & _ & _ & _ & Hbyte).
  rewrite (a2b_sextet_3 _ H3). by rewrite Hbyte.
Qed.

(** Padding after two or three characters of a group ends the decoding. *)
Lemma a2b_pad_2 (rest : list Z) (l : Z) (acc : list Z) :
  a2b_base64_loop (BASE64_PAD :: BASE64_PAD :: rest) 2 l 0 acc = Ok acc.
Proof. reflexivity. Qed.

Lemma a2b_pad_3 (rest : list Z) (l : Z) (acc : list Z) :
  a2b_base64_loop (BASE64_PAD :: rest) 3 l 0 acc = Ok acc.
Proof. reflexivity. Qed.

Lemma list_ind3 {A} (P : list A -> Prop) :
  P [] -> (forall a, P [a]) -> (forall a b, P [a; b]) ->
  (forall a b c l, P l -> P (a :: b :: c :: l)) ->
  forall l, P l.
Proof.
  intros H0 H1 H2 Hstep l.
  enough (P l /\ (forall a, P (a :: l)) /\ (forall a b, P (a :: b :: l)))
    by tauto.
  induction l as [|x l (IH0 & IH1 & IH2)]; [by auto|].
  split; [apply IH1|]. split; [intros a; apply IH2|].
  intros a b. by apply Hstep.
Qed.

Lemma a2b_b64encode (s : list Z) : forall acc,
  Forall is_byte s ->
  a2b_base64_loop (b64encode s) 0 0 0 acc = Ok (acc ++ s).
Proof.
  induction s as [|a|a b|a b c s IH] using list_ind3; intros acc Hs.
  - simpl. by rewrite app_nil_r.
  - apply Forall_cons in Hs as [Ha _].
    cbn [b64encode]. rewrite (a2b_first_byte a 0 _ _ Ha zero_byte).
    apply a2b_pad_2.
  - apply Forall_cons in Hs as [Ha Hs]. apply Forall_cons in Hs as [Hb _].
    cbn [b64encode]. rewrite (a2b_first_byte a b _ _ Ha Hb).
    rewrite (a2b_second_byte b 0 _ _ Hb zero_byte), a2b_pad_3.
    by rewrite <- app_assoc.
  - apply Forall_cons in Hs as [Ha Hs]. apply Forall_cons in Hs as [Hb Hs].
    apply Forall_cons in Hs as [Hc Hs].
    cbn [b64encode app]. rewrite (a2b_first_byte a b _ _ Ha Hb).
    rewrite (a2b_second_byte b c _ _ Hb Hc), (a2b_third_byte c _ _ Hc).
    rewrite (IH _ Hs). by rewrite <- !app_assoc.
Qed.

Lemma b64decode_b64encode (s : list Z) :
  Forall is_byte s -> b64decode (b64encode s) = Ok s.
Proof. intros Hs. unfold b64decode. by rewrite (a2b_b64encode s [] Hs). Qed.

Lemma b64encode_chars (s : list Z) :
  Forall is_byte s -> Forall base64_char (b64encode s).
Proof.
  assert (Hchar : forall v, sextet_ok v = true ->
                            base64_char (table_b2a_base64 v)).
  { intros v Hv. destruct (sextet_facts v Hv) as (Htab & _ & _ & Hrange).
    left. rewrite Htab. lia. }
  assert (Hpad : base64_char BASE64_PAD) by by right.
  induction s as [|a|a b|a b c s IH] using list_ind3; intros Hs.
  - constructor.
  - apply Forall_cons in Hs as [Ha _].
    destruct (group_facts a 0 Ha zero_byte) as (H0 & H1 & _).
    cbn [b64encode]. repeat apply Forall_cons_2; try apply Forall_nil; auto.
  - apply Forall_cons in Hs as [Ha Hs]. apply Forall_cons in Hs as [Hb _].
    destruct (group_facts a b Ha Hb) as (H0 & H1 & _).
    destruct (group_facts b 0 Hb zero_byte) as (_ & _ & H2 & _).
    cbn [b64encode]. repeat apply Forall_cons_2; try apply Forall_nil; auto.
  - apply Forall_cons in Hs as [Ha Hs]. apply Forall_cons in Hs as [Hb Hs].
    apply Forall_cons in Hs as [Hc Hs].
    destruct (group_facts a b Ha Hb) as (H0 & H1 & _).
    destruct (group_facts b c Hb Hc) as (_ & _ & H2 & _).
    destruct (group_facts c 0 Hc zero_byte) as (_ & _ & _ & H3 & _).
    cbn [b64encode app]. repeat apply Forall_cons_2; auto.
Qed.

(** ** Stored blocks *)

Lemma le16_bytes (n : Z) :
  0 <= n <= 0xFFFF ->
  Z.land n 0xFF + 256 * Z.shiftr n 8 = n /\
  is_byte (Z.land n 0xFF) /\ is_byte (Z.shiftr n 8).
Proof.
  intros Hn. unfold is_byte.
  change 0xFF with (Z.ones 8). rewrite Z.land_ones by lia.
  rewrite Z.shiftr_div_pow2 by lia. change (2 ^ 8) with 256.
  Z.div_mod_to_equations. lia.
Qed.

Lemma stored_block_bytes (final : bool) (chunk : list Z) :
  Z.of_nat (length chunk) <= 0xFFFF ->
  Forall is_byte chunk -> Forall is_byte (stored_block final chunk).
Proof.
  intros Hlen Hchunk. unfold stored_block.
  destruct (le16_bytes (Z.of_nat (length chunk))) as (_ & Hl0 & Hl1); [lia|].
  destruct (le16_bytes (0xFFFF - Z.of_nat (length chunk)))
    as (_ & Hn0 & Hn1); [lia|].
  repeat apply Forall_cons_2; try done.
  unfold is_byte. destruct final; lia.
Qed.

(** Reading one stored block. *)
Lemma inflate_stored_block (final : bool) (chunk more out : list Z)
    (fuel : nat) :
  Z.of_nat (length chunk) <= 0xFFFF ->
  inflate_stored_fuel (S fuel) (stored_block final chunk ++ more) out
  = if final then Ok (out ++ chunk)
    else inflate_stored_fuel fuel more (out ++ chunk).
Proof.
  intros Hlen. unfold stored_block.
  destruct (le16_bytes (Z.of_nat (length chunk))) as (Hl & _); [lia|].
  destruct (le16_bytes (0xFFFF - Z.of_nat (length chunk)))
    as (Hn & _); [lia|].
  cbn [app inflate_stored_fuel]. rewrite Hl, Hn.
  rewrite Z.eqb_refl. cbn [negb].
  rewrite length_app.
  destruct (Z.ltb_spec (Z.of_nat (length chunk + length more))
              (Z.of_nat (length chunk))) as [Hlt|_]; [lia|].
  rewrite Nat2Z.id, take_app_length, drop_app_length.
  by destruct final.
Qed.

Lemma inflate_deflate_stored_fuel (f : nat) :
  forall (data out : list Z) (F : nat),
    (length data <= f)%nat ->
    (length (deflate_stored_fuel f data) <= F)%nat ->
    inflate_stored_fuel F (deflate_stored_fuel f data) out = Ok (out ++ data).
Proof.
  induction f as [|f IH]; intros data out F Hf HF.
  - destruct data; [|simpl in Hf; lia].
    destruct F as [|F]; [simpl in HF; lia|].
    cbn [deflate_stored_fuel].
    rewrite <- (app_nil_r (stored_block true [])).
    by rewrite inflate_stored_block.
  - cbn [deflate_stored_fuel] in *.
    destruct (Z.leb_spec (Z.of_nat (length data)) 0xFFFF) as [Hshort|Hlong].
    + destruct F as [|F]; [unfold stored_block in HF; simpl in HF; lia|].
      rewrite <- (app_nil_r (stored_block true data)).
      by rewrite inflate_stored_block.
    + remember (Z.to_nat 0xFFFF) as N eqn:HN.
      assert (HNZ : Z.of_nat N = 0xFFFF) by (subst N; apply Z2Nat.id; lia).
      assert (Htake : length (take N data) = N)
        by (rewrite length_take; lia).
      rewrite length_app in HF.
      destruct F as [|F]; [unfold stored_block in HF; simpl in HF; lia|].
      rewrite inflate_stored_block by lia.
      rewrite IH.
      * by rewrite <- app_assoc, take_drop.
      * rewrite length_drop. lia.
      * unfold stored_block in HF. rewrite length_app in HF.
        cbn [length] in HF. lia.
Qed.

Lemma deflate_stored_fuel_bytes (f : nat) :
  forall data : list Z,
    (length data <= f)%nat ->
    Forall is_byte data -> Forall is_byte (deflate_stored_fuel f data).
Proof.
  induction f as [|f IH]; intros data Hf Hdata; cbn [deflate_stored_fuel].
  - apply stored_block_bytes; [lia|done].
  - destruct (Z.leb_spec (Z.of_nat (length data)) 0xFFFF) as [Hshort|Hlong].
    + by apply stored_block_bytes.
    + remember (Z.to_nat 0xFFFF) as N eqn:HN.
      assert (HNZ : Z.of_nat N = 0xFFFF) by (subst N; apply Z2Nat.id; lia).
      apply Forall_app. split.
      * apply stored_block_bytes; [rewrite length_take; lia|].
        by apply Forall_take.
      * apply IH; [rewrite length_drop; lia|]. by apply Forall_drop.
Qed.

(** The stored-block compressor is one that [inflate_stored] undoes. *)
Lemma deflate_stored_pair : deflate_pair sample_lib deflate_stored.
Proof.
  intros data Hdata. unfold deflate_stored. split.
  - by apply deflate_stored_fuel_bytes.
  - change (zlib_decompress sample_lib) with inflate_stored.
    unfold inflate_stored. change (-15 =? -15) with true. cbv iota.
    by rewrite inflate_deflate_stored_fuel.
Qed.

(** ** Compression and decompression *)

Lemma utf8_bytes_ascii (c : Z) : is_ascii c -> utf8_bytes c = Ok [c].
Proof.
  intros Hc. unfold utf8_bytes, is_ascii in *.
  repeat case_match; try done; lia.
Qed.

Lemma encode_utf8_ascii (text : list Z) :
  Forall is_ascii text -> encode_utf8 text = Ok text.
Proof.
  induction 1 as [|c rest Hc _ IH]; [done|].
  cbn [encode_utf8]. by rewrite (utf8_bytes_ascii c Hc), IH.
Qed.

Lemma ascii_is_byte (c : Z) : is_ascii c -> is_byte c.
Proof. unfold is_ascii, is_byte. lia. Qed.

(** C10: on a text made of base64 characters, the UTF-16 bytes of the
    text are the byte-order mark [FF FE] and each character followed by a
    zero byte; these three byte values are outside the base64 alphabet, the
    decoder skips them, and [decompressData] returns what its embedding with
    ASCII encoding returns. *)
Theorem decompressData_utf16_as_ascii (L : Lib) (text : list Z) :
  Forall base64_char text ->
  ~ base64_char 0xFF /\ ~ base64_char 0xFE /\ ~ base64_char 0 /\
  encode_utf16 text = Ok (0xFF :: 0xFE :: flat_map (fun c => [c; 0]) text) /\
  encode_ascii text = Ok text /\
  b64decode (0xFF :: 0xFE :: flat_map (fun c => [c; 0]) text)
  = b64decode text /\
  decompressData L text = decompressData_ascii L text.
Proof.
  intros Hchars.
  assert (Hascii : Forall is_ascii text)
    by (eapply Forall_impl; [exact Hchars | exact base64_char_ascii]).
  split; [|split; [|split]];
    try (unfold base64_char; vm_compute; intros [?|?]; congruence).
  split; [by apply encode_utf16_ascii|].
  split; [by apply encode_ascii_ascii|].
  split; [apply b64decode_utf16_bytes|].
  by apply decompressData_on_ascii_text.
Qed.

(** C4, as amended: on ASCII text [decompressData] decodes the base64
    text, decompresses the bytes as raw deflate (window bits -15) and decodes
    the outcome as ASCII; and for every ASCII text [T], the compression of
    [T] is a base64 text that [decompressData] turns back into [T]. *)
Theorem decompress_compress_ascii (L : Lib) (deflate : list Z -> list Z)
    (T : list Z) :
  deflate_pair L deflate ->
  Forall is_ascii T ->
  (forall text, Forall is_ascii text ->
     decompressData L text
     = (compressedData ← b64decode text;
        data ← zlib_decompress L compressedData (-15);
        decode_ascii data)) /\
  exists c,
    compressData deflate T = Ok c /\
    Forall base64_char c /\
    decompressData L c = Ok T.
Proof.
  intros Hpair HT. split.
  - intros text Htext. rewrite (decompressData_on_ascii_text L text Htext).
    unfold decompressData_ascii. by rewrite (encode_ascii_ascii text Htext).
  - assert (Hbytes : Forall is_byte T)
      by (eapply Forall_impl; [exact HT | exact ascii_is_byte]).
    destruct (Hpair T Hbytes) as [Hz Hinflate].
    pose proof (b64encode_chars (deflate T) Hz) as Hchars.
    assert (Hascii : Forall is_ascii (b64encode (deflate T)))
      by (eapply Forall_impl; [exact Hchars | exact base64_char_ascii]).
    exists (b64encode (deflate T)). split; [|split; [done|]].
    + unfold compressData. rewrite (encode_utf8_ascii T HT). simpl.
      by apply decode_ascii_ascii.
    + rewrite (decompressData_on_ascii_text L _ Hascii).
      unfold decompressData_ascii. rewrite (encode_ascii_ascii _ Hascii).
      simpl. rewrite (b64decode_b64encode _ Hz). simpl.
      rewrite Hinflate. simpl. by apply decode_ascii_ascii.
Qed.

Lemma decompress_compress_ascii_witness :
  deflate_pair sample_lib deflate_stored /\
  Forall is_ascii (py "[1]") /\
  compressData deflate_stored (py "[1]") = Ok (py "AQMA/P9bMV0=") /\
  decompressData sample_lib (py "AQMA/P9bMV0=") = Ok (py "[1]").
Proof.
  assert (Hascii : Forall is_ascii (py "[1]"))
    by (unfold is_ascii; by_evaluation).
  split; [exact deflate_stored_pair|]. split; [exact Hascii|].
  destruct (decompress_compress_ascii sample_lib deflate_stored (py "[1]")
              deflate_stored_pair Hascii) as (_ & c & Hc & _ & Hback).
  assert (Hval : compressData deflate_stored (py "[1]")
                 = Ok (py "AQMA/P9bMV0=")) by (vm_compute; reflexivity).
  rewrite Hval in Hc. injection Hc as <-. split; [exact Hval | exact Hback].
Defined.

(** C4, as stated, fails: the compression of the one-character text
    [U+00E9] decompresses to the bytes [C3 A9], which are not ASCII. *)
Lemma roundtrip_fails_on_non_ascii :
  deflate_pair sample_lib deflate_stored /\
  compressData deflate_stored [233] = Ok (py "AQIA/f/DqQ==") /\
  decompressData sample_lib (py "AQIA/f/DqQ==") = Raise UnicodeDecodeError /\
  ~ roundtrip_every_text.
Proof.
  assert (Hc : compressData deflate_stored [233] = Ok (py "AQIA/f/DqQ=="))
    by (vm_compute; reflexivity).
  assert (Hd : decompressData sample_lib (py "AQIA/f/DqQ==")
               = Raise UnicodeDecodeError) by (vm_compute; reflexivity).
  split; [exact deflate_stored_pair|]. split; [exact Hc|]. split; [exact Hd|].
  intros Hall.
  destruct (Hall sample_lib deflate_stored deflate_stored_pair [233])
    as (c & Hc' & Hback).
  rewrite Hc in Hc'. injection Hc' as <-. rewrite Hd in Hback.
  discriminate Hback.
Qed.

Lemma decompressData_utf16_as_ascii_witness :
  Forall base64_char (py "AQMA/P9bMV0=") /\
  decompressData sample_lib (py "AQMA/P9bMV0=")
  = decompressData_ascii sample_lib (py "AQMA/P9bMV0=") /\
  decompressData_ascii sample_lib (py "AQMA/P9bMV0=") = Ok (py "[1]").
Proof.
  assert (Hchars : Forall base64_char (py "AQMA/P9bMV0="))
    by (unfold base64_char; by_evaluation).
  split; [exact Hchars|].
  destruct (decompressData_utf16_as_ascii sample_lib _ Hchars)
    as (_ & _ & _ & _ & _ & _ & Hsame).
  split; [exact Hsame|]. vm_compute. reflexivity.
Defined.

(** * Further properties of the code *)

Section PowerModelMore.
Context `{PyNum num} (C : constants num).

Lemma fold_left_nadd_start
    (nadd_assoc : forall x y z : num, nadd x (nadd y z) = nadd (nadd x y) z)
    (nadd_0_l : forall x : num, nadd nzero x = x)
    (nadd_0_r : forall x : num, nadd x nzero = x)
    (l : list num) (a : num) :
  fold_left nadd l a = nadd a (fold_left nadd l nzero).
Proof.
  revert a. induction l as [|x l IH]; intros a; simpl.
  - by rewrite nadd_0_r.
  - rewrite (IH (nadd a x)), (IH (nadd nzero x)).
    by rewrite nadd_0_l, nadd_assoc.
Qed.

(** X1: [powerDelta] is additive: on known attributes, the [powerDelta]
    of two lists of items put together is the sum of the [powerDelta] of
    each.  The numbers are any whose [+] is associative with [0] neutral. *)
Theorem powerDelta_app
    (nadd_assoc : forall x y z : num, nadd x (nadd y z) = nadd (nadd x y) z)
    (nadd_0_l : forall x : num, nadd nzero x = x)
    (nadd_0_r : forall x : num, nadd x nzero = x)
    (stats1 stats2 : list (pystr * num)) :
  Forall (fun kv => known_attribute C kv.1) (stats1 ++ stats2) ->
  exists d1 d2,
    powerDelta C stats1 = Ok d1 /\ powerDelta C stats2 = Ok d2 /\
    powerDelta C (stats1 ++ stats2) = Ok (nadd d1 d2).
Proof.
  intros Hknown. pose proof Hknown as Hboth.
  apply Forall_app in Hboth as [H1 H2].
  exists (weighted_sum C stats1), (weighted_sum C stats2).
  unfold powerDelta.
  rewrite !powerDelta_loop_known by done.
  split; [done|]. split; [done|]. f_equal.
  unfold weighted_sum. rewrite map_app, fold_left_app.
  by apply fold_left_nadd_start.
Qed.

Lemma fold_left_nadd_perm
    (nadd_assoc : forall x y z : num, nadd x (nadd y z) = nadd (nadd x y) z)
    (nadd_comm : forall x y : num, nadd x y = nadd y x)
    (l1 l2 : list num) :
  l1 ≡ₚ l2 -> forall a, fold_left nadd l1 a = fold_left nadd l2 a.
Proof.
  induction 1 as [|x l1 l2 _ IH|x y l|l1 l2 l3 _ IH1 _ IH2]; intros a; simpl.
  - done.
  - apply IH.
  - f_equal. rewrite <- !nadd_assoc. f_equal. apply nadd_comm.
  - by rewrite IH1.
Qed.

(** X2: on known attributes, [powerDelta] and [power] do not depend on
    the order of the items, for numbers whose [+] is associative and
    commutative. *)
Theorem powerDelta_permutation
    (nadd_assoc : forall x y z : num, nadd x (nadd y z) = nadd (nadd x y) z)
    (nadd_comm : forall x y : num, nadd x y = nadd y x)
    (stats1 stats2 : list (pystr * num)) :
  stats1 ≡ₚ stats2 ->
  Forall (fun kv => known_attribute C kv.1) stats1 ->
  powerDelta C stats1 = powerDelta C stats2 /\
  power C stats1 = power C stats2.
Proof.
  intros Hperm Hknown.
  assert (Hknown2 : Forall (fun kv => known_attribute C kv.1) stats2)
    by by rewrite <- Hperm.
  assert (Hsame : powerDelta C stats1 = powerDelta C stats2).
  { unfold powerDelta. rewrite !powerDelta_loop_known by done. f_equal.
    apply fold_left_nadd_perm; [done|done|]. by apply fmap_Permutation. }
  split; [done|]. unfold power. by rewrite Hsame.
Qed.

Lemma maxParticleStats_loop_ok items :
  forall maxStats,
    Forall (fun kv => entry_failure C kv = None) items ->
    exists table, maxParticleStats_loop C items maxStats = Ok table.
Proof.
  induction items as [|[statName data] rest IH]; intros maxStats Hok.
  - by exists maxStats.
  - apply Forall_cons in Hok as [Hkv Hok]. unfold entry_failure in Hkv.
    simpl in Hkv. cbn [maxParticleStats_loop].
    destruct (data !! py "Legendary") as [levels|] eqn:Hleg; [|done].
    destruct (levels !! 4%nat) as [maxValue|] eqn:H4; [|done].
    destruct (POWER_GRADIENT C !! statName) as [g|] eqn:Hg; [|done].
    rewrite (getitem_Some _ _ _ Hleg). simpl.
    unfold list_getitem. rewrite H4. simpl.
    unfold powerDelta. cbn [powerDelta_loop].
    rewrite (getitem_Some _ _ _ Hg). simpl. apply IH, Hok.
Qed.

Lemma maxParticleStats_loop_raise before kv after e :
  forall maxStats,
    Forall (fun kv => entry_failure C kv = None) before ->
    entry_failure C kv = Some e ->
    maxParticleStats_loop C (before ++ kv :: after) maxStats = Raise e.
Proof.
  induction before as [|[statName data] rest IH]; intros maxStats Hok Hkv.
  - destruct kv as [statName data]. unfold entry_failure in Hkv.
    simpl in Hkv. cbn [app maxParticleStats_loop].
    destruct (data !! py "Legendary") as [levels|] eqn:Hleg.
    + rewrite (getitem_Some _ _ _ Hleg). simpl. unfold list_getitem.
      destruct (levels !! 4%nat) as [maxValue|] eqn:H4.
      * simpl. unfold powerDelta. cbn [powerDelta_loop].
        destruct (POWER_GRADIENT C !! statName) as [g|] eqn:Hg; [done|].
        rewrite (getitem_None _ _ Hg). simpl. by injection Hkv as <-.
      * simpl. by injection Hkv as <-.
    + rewrite (getitem_None _ _ Hleg). simpl. by injection Hkv as <-.
  - apply Forall_cons in Hok as [Hhd Hok]. unfold entry_failure in Hhd.
    simpl in Hhd. cbn [app maxParticleStats_loop].
    destruct (data !! py "Legendary") as [levels|] eqn:Hleg; [|done].
    destruct (levels !! 4%nat) as [maxValue|] eqn:H4; [|done].
    destruct (POWER_GRADIENT C !! statName) as [g|] eqn:Hg; [|done].
    rewrite (getitem_Some _ _ _ Hleg). simpl.
    unfold list_getitem. rewrite H4. simpl.
    unfold powerDelta. cbn [powerDelta_loop].
    rewrite (getitem_Some _ _ _ Hg). simpl. by apply IH.
Qed.

(** X3: [maxParticleStats] raises the exception of the first item of the
    tier table that cannot be read: [KeyError 'Legendary'] when the item has
    no such tier, [IndexError] when the tier has fewer than five levels, and
    the [KeyError] of the attribute when the gradient table lacks it. *)
Theorem maxParticleStats_first_failure before kv after e :
  PART_STAT_VALUES C = before ++ kv :: after ->
  Forall (fun kv => entry_failure C kv = None) before ->
  entry_failure C kv = Some e ->
  maxParticleStats C = Raise e /\
  (e = KeyError (py "Legendary") \/ e = IndexError \/ e = KeyError kv.1).
Proof.
  intros Htable Hbefore Hkv. split.
  - unfold maxParticleStats. rewrite Htable.
    by apply maxParticleStats_loop_raise.
  - unfold entry_failure in Hkv. repeat case_match; naive_solver.
Qed.

Lemma entry_failure_None (kv : pystr * gmap pystr (list num)) :
  entry_failure C kv = None <->
  is_Some (POWER_GRADIENT C !! kv.1) /\
  exists levels, kv.2 !! py "Legendary" = Some levels /\
                 (5 <= length levels)%nat.
Proof.
  unfold entry_failure. split.
  - destruct (kv.2 !! py "Legendary") as [levels|]; [|done].
    destruct (levels !! 4%nat) as [maxValue|] eqn:H4; [|done].
    destruct (POWER_GRADIENT C !! kv.1) as [g|]; [|done].
    intros _. split; [done|]. exists levels. split; [done|].
    apply lookup_lt_Some in H4. lia.
  - intros ([g Hg] & levels & -> & Hlen).
    destruct (lookup_lt_is_Some_2 levels 4) as [maxValue ->]; [lia|].
    by rewrite Hg.
Qed.

Lemma first_entry_failure (items : list (pystr * gmap pystr (list num))) :
  Forall (fun kv => entry_failure C kv = None) items \/
  exists before kv after e,
    items = before ++ kv :: after /\
    Forall (fun kv => entry_failure C kv = None) before /\
    entry_failure C kv = Some e.
Proof.
  induction items as [|kv rest [IH|(before & kv' & after & e & -> & Hb & He)]].
  - by left.
  - destruct (entry_failure C kv) as [e|] eqn:Hkv.
    + right. by exists [], kv, rest, e.
    + left. by constructor.
  - destruct (entry_failure C kv) as [e'|] eqn:Hkv.
    + right. by exists [], kv, (before ++ kv' :: after), e'.
    + right. exists (kv :: before), kv', after, e.
      split; [done|]. split; [by constructor|done].
Qed.

(** X4: [maxParticleStats] returns a table exactly when every attribute
    of the tier table has a coefficient in the gradient table and a
    ['Legendary'] tier of at least five levels. *)
Theorem maxParticleStats_returns_iff :
  (exists table, maxParticleStats C = Ok table) <->
  Forall (fun kv =>
            is_Some (POWER_GRADIENT C !! kv.1) /\
            exists levels, kv.2 !! py "Legendary" = Some levels /\
                           (5 <= length levels)%nat)
         (PART_STAT_VALUES C).
Proof.
  unfold maxParticleStats. split.
  - intros [table Hrun].
    destruct (first_entry_failure (PART_STAT_VALUES C))
      as [Hok|(before & kv & after & e & Htable & Hb & He)].
    + eapply Forall_impl; [exact Hok|]. intros kv. apply entry_failure_None.
    + rewrite Htable, (maxParticleStats_loop_raise _ _ _ e) in Hrun by done.
      discriminate Hrun.
  - intros Hok. apply maxParticleStats_loop_ok.
    eapply Forall_impl; [exact Hok|]. intros kv. apply entry_failure_None.
Qed.

End PowerModelMore.

Lemma powerDelta_app_witness :
  (forall x y z : Z, nadd x (nadd y z) = nadd (nadd x y) z) /\
  (forall x : Z, nadd nzero x = x) /\
  (forall x : Z, nadd x nzero = x) /\
  Forall (fun kv => known_attribute sample_constants kv.1)
    ([(py "Attack", 3)] ++ [(py "Health", 4)]) /\
  powerDelta sample_constants ([(py "Attack", 3)] ++ [(py "Health", 4)])
  = Ok (18 + 8).
Proof.
  assert (Ha : forall x y z : Z, nadd x (nadd y z) = nadd (nadd x y) z)
    by (intros; simpl; lia).
  assert (H0l : forall x : Z, nadd nzero x = x) by (intros; simpl; lia).
  assert (H0r : forall x : Z, nadd x nzero = x) by (intros; simpl; lia).
  assert (Hk : Forall (fun kv => known_attribute sample_constants kv.1)
                 ([(py "Attack", 3)] ++ [(py "Health", 4)]))
    by (unfold known_attribute; by_evaluation).
  split; [exact Ha|]. split; [exact H0l|]. split; [exact H0r|].
  split; [exact Hk|].
  destruct (powerDelta_app sample_constants Ha H0l H0r _ _ Hk)
    as (d1 & d2 & H1 & H2 & Hsum).
  vm_compute in H1. injection H1 as <-.
  vm_compute in H2. injection H2 as <-. exact Hsum.
Defined.

Lemma powerDelta_permutation_witness :
  let stats1 := [(py "Attack", 3); (py "Health", 4)] in
  let stats2 := [(py "Health", 4); (py "Attack", 3)] in
  (forall x y z : Z, nadd x (nadd y z) = nadd (nadd x y) z) /\
  (forall x y : Z, nadd x y = nadd y x) /\
  stats1 ≡ₚ stats2 /\
  Forall (fun kv => known_attribute sample_constants kv.1) stats1 /\
  powerDelta sample_constants stats1 = powerDelta sample_constants stats2.
Proof.
  intros stats1 stats2.
  assert (Ha : forall x y z : Z, nadd x (nadd y z) = nadd (nadd x y) z)
    by (intros; simpl; lia).
  assert (Hc : forall x y : Z, nadd x y = nadd y x) by (intros; simpl; lia).
  assert (Hp : stats1 ≡ₚ stats2) by apply Permutation_swap.
  assert (Hk : Forall (fun kv => known_attribute sample_constants kv.1) stats1)
    by (unfold known_attribute; by_evaluation).
  split; [exact Ha|]. split; [exact Hc|]. split; [exact Hp|].
  split; [exact Hk|].
  exact (proj1 (powerDelta_permutation sample_constants Ha Hc _ _ Hp Hk)).
Defined.

Lemma maxParticleStats_first_failure_witness :
  let before := [(py "Attack", <[py "Legendary" := [10; 20; 30; 40; 50]]> ∅)] in
  let kv := (py "Health", <[py "Legendary" := [100; 200; 300; 400]]> ∅) in
  PART_STAT_VALUES short_tier_constants = before ++ kv :: [] /\
  Forall (fun kv => entry_failure short_tier_constants kv = None) before /\
  entry_failure short_tier_constants kv = Some IndexError /\
  maxParticleStats short_tier_constants = Raise IndexError.
Proof.
  intros before kv.
  assert (Ht : PART_STAT_VALUES short_tier_constants = before ++ kv :: [])
    by reflexivity.
  assert (Hb : Forall (fun kv => entry_failure short_tier_constants kv = None)
                 before)
    by (repeat constructor).
  assert (Hkv : entry_failure short_tier_constants kv = Some IndexError)
    by (vm_compute; reflexivity).
  split; [exact Ht|]. split; [exact Hb|]. split; [exact Hkv|].
  exact (proj1 (maxParticleStats_first_failure short_tier_constants
                  _ _ _ _ Ht Hb Hkv)).
Defined.

Lemma decode_ascii_Ok (data s : list Z) :
  decode_ascii data = Ok s -> s = data /\ Forall is_ascii data.
Proof.
  revert s. induction data as [|b rest IH]; intros s; cbn [decode_ascii].
  - by intros [= <-].
  - destruct (Z.leb_spec 0 b); [|done]. destruct (Z.ltb_spec b 128); [|done].
    simpl. destruct (decode_ascii rest) as [s'|e]; [|done].
    intros [= <-]. destruct (IH s' eq_refl) as [-> Hrest].
    split; [done|]. constructor; [unfold is_ascii; lia|done].
Qed.

Lemma decode_ascii_Raise (data : list Z) (e : exn) :
  decode_ascii data = Raise e -> e = UnicodeDecodeError.
Proof.
  induction data as [|b rest IH]; cbn [decode_ascii]; [done|].
  destruct ((0 <=? b) && (b <? 128)); [|by intros [= <-]].
  destruct (decode_ascii rest) as [s'|e']; [done|].
  simpl. intros [= <-]. by apply IH.
Qed.

(** X5: a text that [decompressData] returns is made of ASCII characters
    only; it is, byte for byte, what [zlib.decompress] gave for the decoded
    bytes of the input. *)
Theorem decompressData_result_ascii (L : Lib) (text s : list Z) :
  decompressData L text = Ok s ->
  Forall is_ascii s /\
  exists b64data compressedData,
    encode_utf16 text = Ok b64data /\
    b64decode b64data = Ok compressedData /\
    zlib_decompress L compressedData (-15) = Ok s.
Proof.
  unfold decompressData. intros Hrun.
  apply bind_Ok in Hrun as (b64data & Henc & Hrun).
  apply bind_Ok in Hrun as (cd & Hdec & Hrun).
  apply bind_Ok in Hrun as (data & Hz & Hrun).
  apply decode_ascii_Ok in Hrun as [-> Hascii].
  split; [done|]. by exists b64data, cd.
Qed.

Lemma decompressData_result_ascii_witness :
  decompressData sample_lib (py "AQMA/P9bMV0=") = Ok (py "[1]") /\
  Forall is_ascii (py "[1]").
Proof.
  assert (Hrun : decompressData sample_lib (py "AQMA/P9bMV0=") = Ok (py "[1]"))
    by (vm_compute; reflexivity).
  split; [exact Hrun|].
  exact (proj1 (decompressData_result_ascii sample_lib _ _ Hrun)).
Defined.

(** X6: when the decompressed bytes hold a byte that is not ASCII,
    [decompressData] raises [UnicodeDecodeError]. *)
Theorem decompressData_non_ascii_data (L : Lib)
    (text b64data compressedData data : list Z) :
  encode_utf16 text = Ok b64data ->
  b64decode b64data = Ok compressedData ->
  zlib_decompress L compressedData (-15) = Ok data ->
  ~ Forall is_ascii data ->
  decompressData L text = Raise UnicodeDecodeError.
Proof.
  intros Henc Hdec Hz Hnon. unfold decompressData.
  rewrite Henc. simpl. rewrite Hdec. simpl. rewrite Hz. simpl.
  destruct (decode_ascii data) as [s|e] eqn:Hs.
  - apply decode_ascii_Ok in Hs as [_ Hascii]. done.
  - by rewrite (decode_ascii_Raise data e Hs).
Qed.

(** The decoder reads a text as it reads its base64 characters alone. *)
Lemma a2b_filter (s : list Z) : forall (q l p : Z) (acc : list Z),
  a2b_base64_loop (filter base64_char s) q l p acc
  = a2b_base64_loop s q l p acc.
Proof.
  induction s as [|c rest IH]; intros q l p acc; [done|].
  destruct (decide (base64_char c)) as [Hc|Hc].
  - rewrite filter_cons_True by done. cbn [a2b_base64_loop].
    repeat case_match; try done; apply IH.
  - rewrite filter_cons_False by done. rewrite a2b_skip; [apply IH|..].
    + intros ->. apply Hc. by right.
    + unfold base64_char in Hc. lia.
Qed.

(** X7: on ASCII text, the characters outside the base64 alphabet (line
    breaks, blanks and the like) do not count: [decompressData] gives the
    same on the text and on its base64 characters alone. *)
Theorem decompressData_skips_foreign_characters (L : Lib) (text : list Z) :
  Forall is_ascii text ->
  decompressData L (filter base64_char text) = decompressData L text.
Proof.
  intros Hascii.
  assert (Hfiltered : Forall is_ascii (filter base64_char text)).
  { apply Forall_forall. intros c Hc.
    apply list_elem_of_filter in Hc as [_ Hc].
    by apply (proj1 (Forall_forall _ _) Hascii). }
  rewrite (decompressData_on_ascii_text L _ Hascii).
  rewrite (decompressData_on_ascii_text L _ Hfiltered).
  unfold decompressData_ascii.
  rewrite (encode_ascii_ascii _ Hascii), (encode_ascii_ascii _ Hfiltered).
  simpl. unfold b64decode. by rewrite a2b_filter.
Qed.

Lemma utf16_units_Raise (c : Z) (e : exn) :
  utf16_units c = Raise e -> e = UnicodeEncodeError.
Proof. unfold utf16_units. repeat case_match; congruence. Qed.

Lemma utf16_le_Raise (text : list Z) (e : exn) :
  utf16_le text = Raise e -> e = UnicodeEncodeError.
Proof.
  induction text as [|c rest IH]; cbn [utf16_le]; [done|].
  destruct (utf16_units c) as [us|e'] eqn:Hc.
  - simpl. destruct (utf16_le rest) as [bs|e'']; [done|].
    simpl. intros [= <-]. by apply IH.
  - simpl. intros [= <-]. by apply (utf16_units_Raise c).
Qed.

Lemma utf16_le_surrogate (text : list Z) :
  Exists is_surrogate text -> exists e, utf16_le text = Raise e.
Proof.
  induction 1 as [c rest Hc|c rest _ [e IH]]; cbn [utf16_le].
  - exists UnicodeEncodeError. unfold utf16_units, is_surrogate in *.
    repeat case_match; try done; lia.
  - destruct (utf16_units c) as [us|e']; simpl; [|by eexists].
    rewrite IH. by eexists.
Qed.

(** X8: on a text with a surrogate code point, [decompressData] raises
    [UnicodeEncodeError]: the text has no UTF-16 encoding. *)
Theorem decompressData_surrogate (L : Lib) (text : list Z) :
  Exists is_surrogate text ->
  decompressData L text = Raise UnicodeEncodeError.
Proof.
  intros Hsur. destruct (utf16_le_surrogate text Hsur) as [e He].
  pose proof (utf16_le_Raise text e He) as ->.
  unfold decompressData, encode_utf16. by rewrite He.
Qed.

Lemma decompressData_surrogate_witness :
  Exists is_surrogate [65; 0xD800] /\
  decompressData sample_lib [65; 0xD800] = Raise UnicodeEncodeError.
Proof.
  assert (Hsur : Exists is_surrogate [65; 0xD800]).
  { apply Exists_cons_tl, Exists_cons_hd. unfold is_surrogate. lia. }
  split; [exact Hsur|].
  exact (decompressData_surrogate sample_lib _ Hsur).
Defined.

Lemma decompressData_skips_foreign_characters_witness :
  let text := py "AQMA" ++ [10; 32] ++ py "/P9b" ++ [13; 10] ++ py "MV0=" in
  Forall is_ascii text /\
  filter base64_char text = py "AQMA/P9bMV0=" /\
  decompressData sample_lib text = decompressData sample_lib (py "AQMA/P9bMV0=").
Proof.
  intros text.
  assert (Hascii : Forall is_ascii text) by (unfold is_ascii; by_evaluation).
  assert (Hfilter : filter base64_char text = py "AQMA/P9bMV0=")
    by (vm_compute; reflexivity).
  split; [exact Hascii|]. split; [exact Hfilter|].
  rewrite <- Hfilter. symmetry.
  exact (decompressData_skips_foreign_characters sample_lib text Hascii).
Defined.

Lemma decompressData_non_ascii_data_witness :
  encode_utf16 (py "AQIA/f/DqQ==")
  = Ok (0xFF :: 0xFE :: flat_map (fun c => [c; 0]) (py "AQIA/f/DqQ==")) /\
  b64decode (0xFF :: 0xFE :: flat_map (fun c => [c; 0]) (py "AQIA/f/DqQ=="))
  = Ok [1; 2; 0; 253; 255; 195; 169] /\
  zlib_decompress sample_lib [1; 2; 0; 253; 255; 195; 169] (-15)
  = Ok [195; 169] /\
  ~ Forall is_ascii [195; 169] /\
  decompressData sample_lib (py "AQIA/f/DqQ==") = Raise UnicodeDecodeError.
Proof.
  assert (H1 : encode_utf16 (py "AQIA/f/DqQ==")
    = Ok (0xFF :: 0xFE :: flat_map (fun c => [c; 0]) (py "AQIA/f/DqQ==")))
    by (vm_compute; reflexivity).
  assert (H2 : b64decode
      (0xFF :: 0xFE :: flat_map (fun c => [c; 0]) (py "AQIA/f/DqQ=="))
    = Ok [1; 2; 0; 253; 255; 195; 169]) by (vm_compute; reflexivity).
  assert (H3 : zlib_decompress sample_lib [1; 2; 0; 253; 255; 195; 169] (-15)
    = Ok [195; 169]) by (vm_compute; reflexivity).
  assert (H4 : ~ Forall is_ascii [195; 169]).
  { intros Hall. apply Forall_cons in Hall as [Hc _]. unfold is_ascii in Hc.
    lia. }
  split; [exact H1|]. split; [exact H2|]. split; [exact H3|].
  split; [exact H4|].
  exact (decompressData_non_ascii_data sample_lib _ _ _ _ H1 H2 H3 H4).
Defined.

Lemma a2b_unpadded (s : list Z) : forall (q l p : Z) (acc : list Z),
  BASE64_PAD ∉ s ->
  q = 0 \/ q = 1 \/ q = 2 \/ q = 3 ->
  if decide ((q + Z.of_nat (length (data_chars s))) mod 4 = 0)
  then exists out, a2b_base64_loop s q l p acc = Ok out
  else a2b_base64_loop s q l p acc = Raise BinasciiError.
Proof.
  induction s as [|c rest IH]; intros q l p acc Hpad Hq.
  - cbn [a2b_base64_loop data_chars filter list_filter length].
    rewrite Z.add_0_r.
    destruct Hq as [-> | [-> | [-> | ->]]]; simpl; by eauto.
  - apply not_elem_of_cons in Hpad as [Hc Hpad].
    cbn [a2b_base64_loop].
    destruct (Z.eqb_spec c BASE64_PAD) as [|_]; [done|].
    unfold data_chars.
    destruct (Z.leb_spec 64 (table_a2b_base64 c)) as [Hout|Hin].
    + rewrite filter_cons_False by lia. by apply IH.
    + rewrite filter_cons_True by lia. cbn [length].
      fold (data_chars rest).
      assert (Hnext : forall k, k + Z.of_nat (S (length (data_chars rest)))
                                = (k + 1) + Z.of_nat (length (data_chars rest)))
        by (intros k; lia).
      destruct Hq as [-> | [-> | [-> | ->]]]; cbn [Z.eqb].
      * rewrite Hnext. apply (IH (0 + 1)); auto.
      * rewrite Hnext. apply (IH (1 + 1)); auto.
      * rewrite Hnext. apply (IH (2 + 1)); auto.
      * specialize (IH 0 0 0
                      (acc ++ [Z.lor (Z.shiftl l 6) (table_a2b_base64 c)])
                      Hpad (or_introl eq_refl)).
        repeat case_decide; try done;
          exfalso; Z.div_mod_to_equations; lia.
Qed.

(** X9: on an ASCII text without padding, base64 decoding succeeds
    exactly when the number of characters of the alphabet is a multiple of
    four; otherwise [decompressData] raises [binascii.Error]. *)
Theorem decompressData_unpadded (L : Lib) (text : list Z) :
  Forall is_ascii text ->
  BASE64_PAD ∉ text ->
  (Z.of_nat (length (data_chars text)) mod 4 <> 0 ->
   decompressData L text = Raise BinasciiError) /\
  (Z.of_nat (length (data_chars text)) mod 4 = 0 ->
   exists compressedData,
     b64decode text = Ok compressedData /\
     decompressData L text
     = (data ← zlib_decompress L compressedData (-15); decode_ascii data)).
Proof.
  intros Hascii Hpad.
  rewrite (decompressData_on_ascii_text L text Hascii).
  unfold decompressData_ascii. rewrite (encode_ascii_ascii text Hascii).
  simpl. unfold b64decode.
  pose proof (a2b_unpadded text 0 0 0 [] Hpad (or_introl eq_refl)) as Hloop.
  rewrite Z.add_0_l in Hloop. split; intros Hcount.
  - rewrite decide_False in Hloop by done. by rewrite Hloop.
  - rewrite decide_True in Hloop by done. destruct Hloop as [out Hout].
    exists out. split; [done|]. by rewrite Hout.
Qed.

Lemma decompressData_unpadded_witness :
  Forall is_ascii (py "AQMA/") /\
  (BASE64_PAD ∉ py "AQMA/") /\
  Z.of_nat (length (data_chars (py "AQMA/"))) mod 4 <> 0 /\
  decompressData sample_lib (py "AQMA/") = Raise BinasciiError.
Proof.
  assert (Hascii : Forall is_ascii (py "AQMA/"))
    by (unfold is_ascii; by_evaluation).
  assert (Hpad : BASE64_PAD ∉ py "AQMA/") by by_evaluation.
  assert (Hcount : Z.of_nat (length (data_chars (py "AQMA/"))) mod 4 <> 0)
    by (vm_compute; congruence).
  split; [exact Hascii|]. split; [exact Hpad|]. split; [exact Hcount|].
  exact (proj1 (decompressData_unpadded sample_lib _ Hascii Hpad) Hcount).
Defined.

(** X10: lines 145 and 146 undo base64 encoding: the base64 text of any
    bytes, turned into UTF-16 bytes and decoded, gives the bytes back. *)
Theorem b64_roundtrip_through_utf16 (s : list Z) :
  Forall is_byte s ->
  exists text,
    decode_ascii (b64encode s) = Ok text /\
    (b64data ← encode_utf16 text; b64decode b64data) = Ok s.
Proof.
  intros Hs.
  assert (Hascii : Forall is_ascii (b64encode s)).
  { eapply Forall_impl; [by apply b64encode_chars | exact base64_char_ascii]. }
  exists (b64encode s). split; [by apply decode_ascii_ascii|].
  rewrite (encode_utf16_ascii _ Hascii). simpl.
  rewrite b64decode_utf16_bytes. by apply b64decode_b64encode.
Qed.

Lemma b64_roundtrip_through_utf16_witness :
  Forall is_byte [0; 255; 128; 7] /\
  (b64data ← encode_utf16 (py "AP+ABw=="); b64decode b64data)
  = Ok [0; 255; 128; 7].
Proof.
  assert (Hs : Forall is_byte [0; 255; 128; 7])
    by (unfold is_byte; by_evaluation).
  split; [exact Hs|].
  destruct (b64_roundtrip_through_utf16 _ Hs) as (text & Htext & Hback).
  vm_compute in Htext. injection Htext as <-. exact Hback.
Defined.

(** Decoding the base64 text of bytes followed by more text: after whole
    groups the decoder goes on, after a padded group it stops. *)
Lemma a2b_b64encode_then (s : list Z) : forall (tail acc : list Z),
  Forall is_byte s ->
  a2b_base64_loop (b64encode s ++ tail) 0 0 0 acc
  = if decide (Z.of_nat (length s) mod 3 = 0)
    then a2b_base64_loop tail 0 0 0 (acc ++ s)
    else Ok (acc ++ s).
Proof.
  induction s as [|a|a b|a b c s IH] using list_ind3; intros tail acc Hs.
  - simpl. by rewrite app_nil_r.
  - apply Forall_cons in Hs as [Ha _].
    cbn [b64encode app]. rewrite (a2b_first_byte a 0 _ _ Ha zero_byte).
    apply a2b_pad_2.
  - apply Forall_cons in Hs as [Ha Hs]. apply Forall_cons in Hs as [Hb _].
    cbn [b64encode app]. rewrite (a2b_first_byte a b _ _ Ha Hb).
    rewrite (a2b_second_byte b 0 _ _ Hb zero_byte), a2b_pad_3.
    by rewrite <- app_assoc.
  - apply Forall_cons in Hs as [Ha Hs]. apply Forall_cons in Hs as [Hb Hs].
    apply Forall_cons in Hs as [Hc Hs].
    cbn [b64encode app].
    rewrite (a2b_first_byte a b _ _ Ha Hb).
    rewrite (a2b_second_byte b c _ _ Hb Hc), (a2b_third_byte c _ _ Hc).
    rewrite (IH _ _ Hs). rewrite <- !app_assoc. cbn [app length].
    repeat case_decide; try done; exfalso; Z.div_mod_to_equations; lia.
Qed.

(** X11: after a padded base64 text, [decompressData] ignores whatever
    ASCII text follows. *)
Theorem decompressData_ignores_text_after_padding (L : Lib)
    (s junk : list Z) :
  Forall is_byte s ->
  Z.of_nat (length s) mod 3 <> 0 ->
  Forall is_ascii junk ->
  decompressData L (b64encode s ++ junk) = decompressData L (b64encode s).
Proof.
  intros Hs Hlen Hjunk.
  assert (Hascii : Forall is_ascii (b64encode s)).
  { eapply Forall_impl; [by apply b64encode_chars | exact base64_char_ascii]. }
  assert (Hboth : Forall is_ascii (b64encode s ++ junk))
    by by apply Forall_app.
  rewrite (decompressData_on_ascii_text L _ Hascii).
  rewrite (decompressData_on_ascii_text L _ Hboth).
  unfold decompressData_ascii.
  rewrite (encode_ascii_ascii _ Hascii), (encode_ascii_ascii _ Hboth).
  simpl. unfold b64decode.
  rewrite (a2b_b64encode_then s junk [] Hs), decide_False by done.
  by rewrite (a2b_b64encode s [] Hs).
Qed.

Lemma decompressData_ignores_text_after_padding_witness :
  Forall is_byte [1; 3; 0; 252; 255; 91; 49; 93] /\
  Z.of_nat (length [1; 3; 0; 252; 255; 91; 49; 93]) mod 3 <> 0 /\
  Forall is_ascii (py "junk") /\
  decompressData sample_lib (py "AQMA/P9bMV0=junk")
  = decompressData sample_lib (py "AQMA/P9bMV0=").
Proof.
  assert (Hs : Forall is_byte [1; 3; 0; 252; 255; 91; 49; 93])
    by (unfold is_byte; by_evaluation).
  assert (Hlen : Z.of_nat (length [1; 3; 0; 252; 255; 91; 49; 93]) mod 3 <> 0)
    by (vm_compute; congruence).
  assert (Hjunk : Forall is_ascii (py "junk"))
    by (unfold is_ascii; by_evaluation).
  split; [exact Hs|]. split; [exact Hlen|]. split; [exact Hjunk|].
  exact (decompressData_ignores_text_after_padding sample_lib _ _
           Hs Hlen Hjunk).
Defined.

Lemma compressData_roundtrip (L : Lib) (deflate : list Z -> list Z)
    (T : list Z) :
  deflate_pair L deflate -> Forall is_ascii T ->
  exists c,
    compressData deflate T = Ok c /\ Forall is_ascii c /\
    decompressData L c = Ok T.
Proof.
  intros Hpair HT.
  assert (Hbytes : Forall is_byte T)
    by (eapply Forall_impl; [exact HT | exact ascii_is_byte]).
  destruct (Hpair T Hbytes) as [Hz Hinflate].
  assert (Hascii : Forall is_ascii (b64encode (deflate T))).
  { eapply Forall_impl; [by apply b64encode_chars | exact base64_char_ascii]. }
  exists (b64encode (deflate T)). split; [|split; [done|]].
  - unfold compressData. rewrite (encode_utf8_ascii T HT). simpl.
    by apply decode_ascii_ascii.
  - rewrite (decompressData_on_ascii_text L _ Hascii).
    unfold decompressData_ascii. rewrite (encode_ascii_ascii _ Hascii).
    simpl. rewrite (b64decode_b64encode _ Hz). simpl.
    rewrite Hinflate. simpl. by apply decode_ascii_ascii.
Qed.

Lemma COMPR_ascii : Forall is_ascii COMPR.
Proof. unfold is_ascii. by_evaluation. Qed.

Lemma take_COMPR (c : list Z) : take 6 (COMPR ++ c) = COMPR.
Proof. reflexivity. Qed.

Lemma drop_COMPR (c : list Z) : drop 6 (COMPR ++ c) = c.
Proof. reflexivity. Qed.

(** X12: data compressed twice, as the docstring tells it (compressed,
    marked with [compr-], compressed again), is recovered by decompressing,
    dropping the marker and decompressing again. *)
Theorem double_compression_roundtrip (L : Lib) (deflate : list Z -> list Z)
    (T : list Z) :
  deflate_pair L deflate ->
  Forall is_ascii T ->
  exists c1 c2,
    compressData deflate T = Ok c1 /\
    compressData deflate (COMPR ++ c1) = Ok c2 /\
    decompressData L c2 = Ok (COMPR ++ c1) /\
    take 6 (COMPR ++ c1) = COMPR /\
    decompressData L (drop 6 (COMPR ++ c1)) = Ok T.
Proof.
  intros Hpair HT.
  destruct (compressData_roundtrip L deflate T Hpair HT)
    as (c1 & Hc1 & Hascii1 & Hback1).
  assert (Hmarked : Forall is_ascii (COMPR ++ c1))
    by (apply Forall_app; split; [exact COMPR_ascii | done]).
  destruct (compressData_roundtrip L deflate _ Hpair Hmarked)
    as (c2 & Hc2 & _ & Hback2).
  exists c1, c2. rewrite take_COMPR, drop_COMPR. done.
Qed.

Lemma double_compression_roundtrip_witness :
  deflate_pair sample_lib deflate_stored /\
  Forall is_ascii (py "[1]") /\
  exists c2,
    compressData deflate_stored (COMPR ++ py "AQMA/P9bMV0=") = Ok c2 /\
    decompressData sample_lib c2 = Ok (COMPR ++ py "AQMA/P9bMV0=") /\
    decompressData sample_lib (py "AQMA/P9bMV0=") = Ok (py "[1]").
Proof.
  assert (Hascii : Forall is_ascii (py "[1]"))
    by (unfold is_ascii; by_evaluation).
  split; [exact deflate_stored_pair|]. split; [exact Hascii|].
  destruct (double_compression_roundtrip sample_lib deflate_stored _
              deflate_stored_pair Hascii)
    as (c1 & c2 & Hc1 & Hc2 & Hback2 & _ & Hback1).
  vm_compute in Hc1. injection Hc1 as <-.
  exists c2. split; [exact Hc2|]. split; [exact Hback2 | exact Hback1].
Defined.

(** X13: a slot whose decrypted text is the marker and the compression
    of a JSON text decodes to the same payload as a slot whose decrypted text
    is that JSON text itself, namely what [json.loads] gives for it. *)
Theorem compressed_slot_same_payload (L : Lib) (deflate : list Z -> list Z)
    (T c : list Z) (plainField compressedField : pyval) :
  deflate_pair L deflate ->
  Forall is_ascii T ->
  take 6 T <> COMPR ->
  compressData deflate T = Ok c ->
  AESdecrypt L plainField AES_KEY AES_IV = Ok T ->
  AESdecrypt L compressedField AES_KEY AES_IV = Ok (COMPR ++ c) ->
  decode_payload L plainField = json_loads L T /\
  decode_payload L compressedField = json_loads L T.
Proof.
  intros Hpair HT Hplain Hc Hp Hz.
  destruct (compressData_roundtrip L deflate T Hpair HT)
    as (c' & Hc' & _ & Hback).
  rewrite Hc in Hc'. injection Hc' as <-.
  unfold decode_payload. rewrite Hp, Hz.
  cbn [mbind result_bind]. split.
  - by rewrite bool_decide_eq_false_2.
  - rewrite bool_decide_eq_true_2 by apply take_COMPR.
    by rewrite drop_COMPR, Hback.
Qed.

Lemma compressed_slot_same_payload_witness :
  deflate_pair sample_lib_2 deflate_stored /\
  Forall is_ascii (py "[1]") /\
  take 6 (py "[1]") <> COMPR /\
  compressData deflate_stored (py "[1]") = Ok (py "AQMA/P9bMV0=") /\
  AESdecrypt sample_lib_2 (PStr (py "p")) AES_KEY AES_IV = Ok (py "[1]") /\
  AESdecrypt sample_lib_2 (PStr (py "z")) AES_KEY AES_IV
  = Ok (COMPR ++ py "AQMA/P9bMV0=") /\
  decode_payload sample_lib_2 (PStr (py "p")) = Ok (PList [PInt 1]) /\
  decode_payload sample_lib_2 (PStr (py "z")) = Ok (PList [PInt 1]).
Proof.
  assert (Hpair : deflate_pair sample_lib_2 deflate_stored)
    by exact deflate_stored_pair.
  assert (Hascii : Forall is_ascii (py "[1]"))
    by (unfold is_ascii; by_evaluation).
  assert (Hplain : take 6 (py "[1]") <> COMPR) by (vm_compute; congruence).
  assert (Hc : compressData deflate_stored (py "[1]") = Ok (py "AQMA/P9bMV0="))
    by (vm_compute; reflexivity).
  assert (Hp : AESdecrypt sample_lib_2 (PStr (py "p")) AES_KEY AES_IV
               = Ok (py "[1]")) by (vm_compute; reflexivity).
  assert (Hz : AESdecrypt sample_lib_2 (PStr (py "z")) AES_KEY AES_IV
               = Ok (COMPR ++ py "AQMA/P9bMV0=")) by (vm_compute; reflexivity).
  split; [exact Hpair|]. split; [exact Hascii|]. split; [exact Hplain|].
  split; [exact Hc|]. split; [exact Hp|]. split; [exact Hz|].
  exact (compressed_slot_same_payload sample_lib_2 deflate_stored _ _ _ _
           Hpair Hascii Hplain Hc Hp Hz).
Defined.

Lemma slot_outcome_unsized (L : Lib) (v : pyval) :
  unsized v -> slot_outcome L (Some v) = Raise TypeError.
Proof. by destruct v. Qed.

(** X14: a slot whose field is a value without length (a number, a
    boolean, a date, [None]) makes the decoder fail: it returns no document,
    and raises [TypeError] when the slots before it decode. *)
Theorem slot_without_length_raises (L : Lib) (d : gmap pystr pyval) (i : Z)
    (v : pyval) :
  0 <= i < 3 ->
  d !! slot_key i = Some v ->
  unsized v ->
  (forall out, decode_slots L d <> Ok out) /\
  ((forall j, 0 <= j < i ->
      exists p, slot_outcome L (d !! slot_key j) = Ok p) ->
   decode_slots L d = Raise TypeError).
Proof.
  intros Hi Hfield Hv.
  pose proof (slot_outcome_unsized L v Hv) as Hout.
  rewrite <- Hfield in Hout. split.
  - intros out Hrun.
    destruct (decode_slots_lookup L d out i Hi Hrun) as (p & Hp & _).
    congruence.
  - intros Hbefore. rewrite decode_slots_outcomes.
    destruct (slot_index_cases i Hi) as [-> | [-> | ->]].
    + by rewrite Hout.
    + destruct (Hbefore 0) as [p0 ->]; [lia|]. simpl. by rewrite Hout.
    + destruct (Hbefore 0) as [p0 ->]; [lia|].
      destruct (Hbefore 1) as [p1 ->]; [lia|]. simpl. by rewrite Hout.
Qed.

Lemma slot_without_length_raises_witness :
  0 <= 0 < 3 /\
  numeric_slot_0 !! slot_key 0 = Some (PInt 7) /\
  unsized (PInt 7) /\
  decode_slots sample_lib numeric_slot_0 = Raise TypeError.
Proof.
  assert (Hi : 0 <= 0 < 3) by lia.
  assert (Hfield : numeric_slot_0 !! slot_key 0 = Some (PInt 7))
    by (vm_compute; reflexivity).
  assert (Hv : unsized (PInt 7)) by exact I.
  split; [exact Hi|]. split; [exact Hfield|]. split; [exact Hv|].
  apply (proj2 (slot_without_length_raises sample_lib _ 0 _ Hi Hfield Hv)).
  intros j Hj. lia.
Defined.

(** X15: a slot is decoded from its own field alone: two documents with
    the same field for a slot get the same value for it, whatever their other
    entries are. *)
Theorem slot_decoded_from_own_field (L : Lib) (d1 d2 out1 out2 : gmap pystr pyval)
    (i : Z) :
  0 <= i < 3 ->
  d1 !! slot_key i = d2 !! slot_key i ->
  decode_slots L d1 = Ok out1 ->
  decode_slots L d2 = Ok out2 ->
  out1 !! slot_key i = out2 !! slot_key i.
Proof.
  intros Hi Hsame Hrun1 Hrun2.
  destruct (decode_slots_lookup L d1 out1 i Hi Hrun1) as (p1 & Hp1 & ->).
  destruct (decode_slots_lookup L d2 out2 i Hi Hrun2) as (p2 & Hp2 & ->).
  rewrite Hsame in Hp1. congruence.
Qed.

(** X16: an entry under a key that is no slot key passes through the
    decoder: decoding a document with that entry added gives the decoded
    document with that entry added, and raises what decoding without it
    raises. *)
Theorem decode_slots_insert_other (L : Lib) (d : gmap pystr pyval)
    (key : pystr) (v : pyval) :
  (forall i, 0 <= i < 3 -> key <> slot_key i) ->
  decode_slots L (<[key := v]> d)
  = (out ← decode_slots L d; Ok (<[key := v]> out)).
Proof.
  intros Hkey.
  assert (H0 : key <> slot_key 0) by (apply Hkey; lia).
  assert (H1 : key <> slot_key 1) by (apply Hkey; lia).
  assert (H2 : key <> slot_key 2) by (apply Hkey; lia).
  rewrite !decode_slots_outcomes.
  rewrite !lookup_insert_ne by done.
  destruct (slot_outcome L (d !! slot_key 0)) as [p0|e]; simpl; [|done].
  destruct (slot_outcome L (d !! slot_key 1)) as [p1|e]; simpl; [|done].
  destruct (slot_outcome L (d !! slot_key 2)) as [p2|e]; simpl; [|done].
  f_equal.
  rewrite (insert_insert_ne _ (slot_key 0) key) by done.
  rewrite (insert_insert_ne _ (slot_key 1) key) by done.
  by rewrite (insert_insert_ne _ (slot_key 2) key) by done.
Qed.

(** X17: the path of the save file is [/Users/], the user name and the
    fixed rest to the property list of the game; so two surroundings have
    the same path exactly when they have the same user name. *)
Theorem saveFilePath_user (w1 w2 : World) :
  saveFilePath w1
  = py "/Users/" ++ getuser w1
    ++ py "/Library/Containers/com.tiltingpoint.startrek/Data/Library/Preferences/com.tiltingpoint.startrek.plist" /\
  (saveFilePath w1 = saveFilePath w2 <-> getuser w1 = getuser w2).
Proof.
  split.
  - unfold saveFilePath. do 2 f_equal.
  - unfold saveFilePath. split; [|by intros ->].
    intros Hpath. apply app_inv_head in Hpath.
    by apply app_inv_tail in Hpath.
Qed.

Lemma slot_decoded_from_own_field_witness :
  let d2 := <[py "0 data" := PStr []]> sample_saveFile in
  0 <= 2 < 3 /\
  sample_saveFile !! slot_key 2 = d2 !! slot_key 2 /\
  exists out1 out2,
    decode_slots sample_lib sample_saveFile = Ok out1 /\
    decode_slots sample_lib d2 = Ok out2 /\
    out1 !! slot_key 2 = out2 !! slot_key 2.
Proof.
  intros d2.
  assert (Hi : 0 <= 2 < 3) by lia.
  assert (Hsame : sample_saveFile !! slot_key 2 = d2 !! slot_key 2)
    by (vm_compute; reflexivity).
  split; [exact Hi|]. split; [exact Hsame|].
  destruct (proj1 (decode_slots_returns sample_lib sample_saveFile))
    as [out1 Hrun1].
  { intros i Hi'.
    destruct (slot_index_cases i Hi') as [-> | [-> | ->]];
      [exists (PDict ∅) | exists (PDict ∅) | exists (PList [PInt 1])];
      vm_compute; reflexivity. }
  destruct (proj1 (decode_slots_returns sample_lib d2)) as [out2 Hrun2].
  { intros i Hi'.
    destruct (slot_index_cases i Hi') as [-> | [-> | ->]];
      [exists (PDict ∅) | exists (PDict ∅) | exists (PList [PInt 1])];
      vm_compute; reflexivity. }
  exists out1, out2. split; [exact Hrun1|]. split; [exact Hrun2|].
  exact (slot_decoded_from_own_field sample_lib _ _ _ _ 2
           Hi Hsame Hrun1 Hrun2).
Defined.

Lemma decode_slots_insert_other_witness :
  (forall i, 0 <= i < 3 -> py "extra" <> slot_key i) /\
  decode_slots sample_lib (<[py "extra" := PInt 1]> sample_saveFile)
  = (out ← decode_slots sample_lib sample_saveFile;
     Ok (<[py "extra" := PInt 1]> out)).
Proof.
  assert (Hkey : forall i, 0 <= i < 3 -> py "extra" <> slot_key i).
  { intros i Hi.
    destruct (slot_index_cases i Hi) as [-> | [-> | ->]];
      vm_compute; congruence. }
  split; [exact Hkey|].
  exact (decode_slots_insert_other sample_lib _ _ _ Hkey).
Defined.
